(** * chat-client: the HTTP access layer and the file service

    A shallow embedding of [services/axios.js] (the axios instance with its
    request and response interceptors) and of the [FileService] class that
    follows it in the same source file, with the properties of the retry
    policy, the error normalisation, the session refresh and the upload
    protocol stated and proved over the embedding.

    Numbers.  JavaScript numbers are doubles.  Counters, HTTP statuses and byte
    counts are integers and are modelled by [nat] and [Z]; delays are modelled
    by exact rationals [Q] (the jitter factor [0.1] is read as 1/10).  Where
    the rounding of a floating-point computation on integers shows in the
    result (the logarithm in [formatFileSize]), the embedding follows the
    doubles.
    Strings are byte strings: a JavaScript string is represented by its UTF-8
    encoding. *)

From Stdlib Require Import ZArith QArith Qminmax Qpower List String Ascii Bool Lia.
From Stdlib Require Import DecimalString.
From stdpp Require Import gmap strings.

Import ListNotations.
Local Open Scope string_scope.
Set Warnings "-register-all".

(** ** JavaScript values as the source uses them *)

Module Js.

(** Truthiness of a possibly [undefined] string: [undefined] and [""] are
    falsy. *)
Definition truthy (s : option string) : bool :=
  match s with
  | Some s => negb (String.eqb s "")
  | None => false
  end.

(** [a || b] on possibly-undefined strings with a string fallback. *)
Definition or_else (a : option string) (b : string) : string :=
  match a with
  | Some s => if String.eqb s "" then b else s
  | None => b
  end.

(** [Array.prototype.includes] on an array of strings. *)
Fixpoint includes (l : list string) (x : string) : bool :=
  match l with
  | [] => false
  | y :: l => String.eqb y x || includes l x
  end.

(** [Array.prototype.includes] on an array of integers. *)
Fixpoint includesZ (l : list Z) (x : Z) : bool :=
  match l with
  | [] => false
  | y :: l => Z.eqb y x || includesZ l x
  end.

(** [arr.filter(Boolean).join(sep)] on an array of strings. *)
Fixpoint join (sep : string) (l : list string) : string :=
  match l with
  | [] => ""
  | [x] => x
  | x :: l => x ++ sep ++ join sep l
  end.

(** [String.prototype.toLowerCase] on the ASCII letters. *)
Fixpoint toLowerCase (s : string) : string :=
  match s with
  | EmptyString => EmptyString
  | String c s =>
    let n := N_of_ascii c in
    String (if (65 <=? n)%N && (n <=? 90)%N then ascii_of_N (n + 32) else c)
           (toLowerCase s)
  end.

Definition filterBoolean (l : list string) : list string :=
  List.filter (fun s => negb (String.eqb s "")) l.

End Js.

(** ** The retry policy *)

Record RetryConfig := {
  maxRetries : nat;
  initialDelayMs : Q;
  maxDelayMs : Q;
  backoffFactor : Q;
  retryableStatuses : list Z;
  retryableErrors : list string
}.

Definition RETRY_CONFIG : RetryConfig := {|
  maxRetries := 3;
  initialDelayMs := 1000;
  maxDelayMs := 5000;
  backoffFactor := 2;
  retryableStatuses := [408; 429; 500; 502; 503; 504]%Z;
  retryableErrors :=
    ["ECONNABORTED"; "ETIMEDOUT"; "ENOTFOUND"; "ENETUNREACH"; "ERR_NETWORK"]
|}.

(** [getRetryDelay(retryCount)]; the value of [Math.random()] is the second
    argument. *)
Definition getRetryDelay (retryCount : nat) (random : Q) : Q :=
  let delay :=
    (initialDelayMs RETRY_CONFIG
     * backoffFactor RETRY_CONFIG ^ Z.of_nat retryCount
     * (1 + random * (1 # 10)))%Q in
  Qmin delay (maxDelayMs RETRY_CONFIG).

(** ** Data of the HTTP layer *)

(** JSON bodies. *)
Inductive Json :=
| JUndefined
| JNull
| JBool (b : bool)
| JNum (n : Z)
| JStr (s : string)
| JObj (fields : list (string * Json)).

(** The session kept by [authService]: [{token, sessionId}]. *)
Record User := {
  token : option string;
  sessionId : option string
}.

(** The request configuration object.  [headers] is [None] when the object
    has no [headers] property (the [{}] that the response handler substitutes
    for a missing [error.config]). *)
Record Config := {
  method : option string;
  url : option string;
  serverType : option string;
  baseURL : option string;
  headers : option (gmap string string);
  data : Json;
  retryCount : option nat
}.

Definition emptyConfig : Config := {|
  method := None; url := None; serverType := None; baseURL := None;
  headers := None; data := JUndefined; retryCount := None
|}.

Definition with_method (c : Config) (m : option string) : Config :=
  {| method := m; url := url c; serverType := serverType c;
     baseURL := baseURL c; headers := headers c; data := data c;
     retryCount := retryCount c |}.

Definition with_baseURL (c : Config) (b : option string) : Config :=
  {| method := method c; url := url c; serverType := serverType c;
     baseURL := b; headers := headers c; data := data c;
     retryCount := retryCount c |}.

Definition with_headers (c : Config) (h : option (gmap string string)) : Config :=
  {| method := method c; url := url c; serverType := serverType c;
     baseURL := baseURL c; headers := h; data := data c;
     retryCount := retryCount c |}.

Definition with_data (c : Config) (d : Json) : Config :=
  {| method := method c; url := url c; serverType := serverType c;
     baseURL := baseURL c; headers := headers c; data := d;
     retryCount := retryCount c |}.

Definition with_retryCount (c : Config) (n : option nat) : Config :=
  {| method := method c; url := url c; serverType := serverType c;
     baseURL := baseURL c; headers := headers c; data := data c;
     retryCount := n |}.

Record Response := {
  status : Z;
  resp_data : Json;
  resp_config : Config
}.

(** The error object handed to the response handler: the properties the
    handler reads.  [err_request] tells whether [error.request] is set,
    [err_cancel] is the value of [axios.isCancel(error)]. *)
Record AxiosError := {
  err_message : string;
  err_code : option string;
  err_response : option Response;
  err_request : bool;
  err_config : option Config;
  err_cancel : bool
}.

(** The objects built by the response handler ([customError] and
    [enhancedError]).  [ne_retry] is the configuration captured by the
    [retry] closure: calling [retry()] is [axiosInstance(ne_retry)]. *)
Record NormalizedError := {
  ne_message : string;
  ne_isNetworkError : bool;
  ne_status : Z;
  ne_code : Json;
  ne_data : Json;
  ne_config : Config;
  ne_originalError : AxiosError;
  ne_retry : Config
}.

Inductive Thrown :=
| ThrownAxios (e : AxiosError)
| ThrownNormalized (e : NormalizedError).

Inductive Settled :=
| Fulfilled (r : Response)
| Rejected (t : Thrown).

Module JsJson.

(** Truthiness of a JSON value. *)
Definition truthy (j : Json) : bool :=
  match j with
  | JUndefined | JNull => false
  | JBool b => b
  | JNum n => negb (Z.eqb n 0)
  | JStr s => negb (String.eqb s "")
  | JObj _ => true
  end.

Fixpoint assoc (fields : list (string * Json)) (k : string) : Json :=
  match fields with
  | [] => JUndefined
  | (k', v) :: fields => if String.eqb k' k then v else assoc fields k
  end.

(** [j?.k]: [undefined] on [undefined] and [null], the property otherwise. *)
Definition optProp (j : Json) (k : string) : Json :=
  match j with
  | JObj fields => assoc fields k
  | _ => JUndefined
  end.

(** [j.k]: a [TypeError] ([None]) on [undefined] and [null]. *)
Definition prop (j : Json) (k : string) : option Json :=
  match j with
  | JUndefined | JNull => None
  | JObj fields => Some (assoc fields k)
  | _ => Some JUndefined
  end.

(** A string-valued property, as the handler uses server messages and
    codes. *)
Definition optStr (j : Json) (k : string) : option string :=
  match optProp j k with
  | JStr s => Some s
  | _ => None
  end.

End JsJson.

(** ** Strings: percent-encoding and number rendering *)

Module Encoding.

Definition inRange (lo hi : N) (c : ascii) : bool :=
  (lo <=? N_of_ascii c)%N && (N_of_ascii c <=? hi)%N.

Definition isAlnum (c : ascii) : bool :=
  inRange 48 57 c || inRange 65 90 c || inRange 97 122 c.

Definition oneOf (chars : string) (c : ascii) : bool :=
  existsb (Ascii.eqb c) (list_ascii_of_string chars).

Definition hexDigit (n : N) : ascii :=
  if (n <? 10)%N then ascii_of_N (48 + n) else ascii_of_N (55 + n).

(** [%XX] with upper-case hexadecimal digits. *)
Definition percent (c : ascii) : string :=
  String "%" (String (hexDigit (N_of_ascii c / 16))
             (String (hexDigit (N_of_ascii c mod 16)) "")).

Fixpoint encodeWith (enc : ascii -> string) (s : string) : string :=
  match s with
  | EmptyString => ""
  | String c s => enc c ++ encodeWith enc s
  end.

(** [encodeURIComponent]: every byte except the alphanumerics and
    [- _ . ! ~ * ' ( )] is escaped. *)
Definition encodeURIComponent (s : string) : string :=
  encodeWith (fun c => if isAlnum c || oneOf "-_.!~*'()" c
                       then String c "" else percent c) s.

(** The [application/x-www-form-urlencoded] byte serializer used by
    [URLSearchParams]: alphanumerics and [* - . _] are kept, a space
    becomes [+], every other byte is escaped. *)
Definition formEncode (s : string) : string :=
  encodeWith (fun c => if isAlnum c || oneOf "*-._" c then String c ""
                       else if Ascii.eqb c " " then "+" else percent c) s.

(** [URLSearchParams.prototype.toString]. *)
Definition serializeParams (params : list (string * string)) : string :=
  Js.join "&" (map (fun kv => formEncode (fst kv) ++ "=" ++ formEncode (snd kv)) params).

(** Decimal rendering of an integer. *)
Definition decimal (n : Z) : string := NilZero.string_of_int (Z.to_int n).

Definition twoDigits (n : Z) : string :=
  if (n <? 10)%Z then "0" ++ decimal n else decimal n.

(** [(num / den).toFixed(2)] for [num >= 0] and [den > 0]: the hundredths
    nearest to the quotient, the larger one on a tie. *)
Definition hundredths (num den : Z) : Z := ((200 * num + den) / (2 * den))%Z.

Definition toFixed2 (num den : Z) : string :=
  let n := hundredths num den in
  decimal (n / 100) ++ "." ++ twoDigits (n mod 100).

(** The integers that a JavaScript number holds exactly and prints digit
    by digit. *)
Definition safeInteger (n : Z) : Prop := (- 2 ^ 53 < n < 2 ^ 53)%Z.

(** A value whose conversion to a string is the one below: every value but
    a number outside the safe integers (which JavaScript rounds, and prints
    in exponent form from 1e21 on). *)
Definition rendersExactly (j : Json) : Prop :=
  match j with
  | JNum n => safeInteger n
  | _ => True
  end.

(** Conversion of a JSON value to a string (template literals,
    [new Error(value)]); for a number it is the decimal rendering, which is
    what JavaScript prints for the safe integers. *)
Definition toString (j : Json) : string :=
  match j with
  | JUndefined => "undefined"
  | JNull => "null"
  | JBool b => if b then "true" else "false"
  | JNum n => decimal n
  | JStr s => s
  | JObj _ => "[object Object]"
  end.

End Encoding.

(** ** The retry classification *)

Definition isRetryableError (error : option AxiosError) : bool :=
  match error with
  | None => false
  | Some error =>
    if Js.truthy (err_code error)
       && Js.includes (retryableErrors RETRY_CONFIG) (default "" (err_code error))
    then true
    else if match err_response error with
            | Some r => negb (Z.eqb (status r) 0)
                        && Js.includesZ (retryableStatuses RETRY_CONFIG) (status r)
            | None => false
            end
    then true
    else if match err_response error with
            | Some _ => false
            | None => err_request error
            end
    then true
    else false
  end.

(** ** The world around the axios instance

    [authService], the transport, [Math.random] and the process environment
    are collaborators outside the source file.  Their behaviour is an
    arbitrary environment [Env]; the calls made to them are recorded, in
    order, in the trace of the [World]. *)

Inductive RawOutcome :=
| RawOk (status : Z) (body : Json)
| RawFail (message : string) (code : option string)
          (response : option (Z * Json)) (request : bool) (cancel : bool).

Inductive RefreshOutcome :=
| RefreshReturns (refreshed : bool) (user : option User)
| RefreshThrows.

Record Env := {
  API_GATEWAY_URL : option string;
  CHAT_SERVER_URL : option string;
  (** the outcome of the k-th transport attempt, made with a given
      configuration *)
  transport : nat -> Config -> RawOutcome;
  (** the k-th call of [authService.refreshToken()]: the truthiness of the
      value it resolves to and the session stored afterwards, or a
      rejection *)
  refreshToken : nat -> RefreshOutcome;
  (** the k-th value of [Math.random()] *)
  mathRandom : nat -> Q;
  (** [typeof window !== "undefined"] *)
  hasWindow : bool
}.

Inductive Event :=
| EvSend (config : Config)
| EvDelay (ms : Q)
| EvRefresh
| EvLogout
| EvNavigate (href : string).

Record World := {
  currentUser : option User;
  sent : nat;
  refreshes : nat;
  randoms : nat;
  pendingRequests : gset string;
  trace : list Event
}.

Definition initialWorld (user : option User) : World := {|
  currentUser := user; sent := 0; refreshes := 0; randoms := 0;
  pendingRequests := ∅; trace := []
|}.

Definition emit (ev : Event) (w : World) : World :=
  {| currentUser := currentUser w; sent := sent w; refreshes := refreshes w;
     randoms := randoms w; pendingRequests := pendingRequests w;
     trace := trace w ++ [ev] |}.

Definition tick_sent (w : World) : World :=
  {| currentUser := currentUser w; sent := S (sent w); refreshes := refreshes w;
     randoms := randoms w; pendingRequests := pendingRequests w;
     trace := trace w |}.

Definition tick_randoms (w : World) : World :=
  {| currentUser := currentUser w; sent := sent w; refreshes := refreshes w;
     randoms := S (randoms w); pendingRequests := pendingRequests w;
     trace := trace w |}.

Definition refreshed_world (user : option User) (w : World) : World :=
  {| currentUser := user; sent := sent w; refreshes := S (refreshes w);
     randoms := randoms w; pendingRequests := pendingRequests w;
     trace := trace w |}.

Definition delete_pending (key : string) (w : World) : World :=
  {| currentUser := currentUser w; sent := sent w; refreshes := refreshes w;
     randoms := randoms w; pendingRequests := pendingRequests w ∖ {[ key ]};
     trace := trace w |}.

(** ** The axios instance and its interceptors *)

(** What the axios library does with a configuration before it runs the
    interceptors: it merges the defaults of [axios.create], so that a
    [headers] object is always present, and it sets [method] to its
    lower-case form, ["get"] when there is none. *)
Definition defaultHeaders : gmap string string :=
  {[ "Content-Type" := "application/json" ]}.

Definition mergeConfig (config : Config) : Config :=
  with_method
    (with_headers config (Some (default defaultHeaders (headers config))))
    (Some (Js.toLowerCase (default "get" (method config)))).

Definition getBaseURLByServerType (E : Env) (serverType : string) : option string :=
  if String.eqb serverType "apiGateway" then API_GATEWAY_URL E
  else if String.eqb serverType "chatServer" then CHAT_SERVER_URL E
  else API_GATEWAY_URL E.

(** [config.headers[k] = v].  On a configuration without a [headers]
    object the assignment throws a [TypeError] before anything is written,
    so the object is left as it is; that the interceptor then rejects is
    [interceptorRejects] below. *)
Definition set_header (k v : string) (config : Config) : Config :=
  match headers config with
  | Some h => with_headers config (Some (<[ k := v ]> h))
  | None => config
  end.

(** The interceptor rejects instead of returning the configuration: there
    is a token to attach and the configuration has no [headers] object, so
    the header assignment throws, and the [catch] block turns the
    [TypeError] into a rejected promise. *)
Definition interceptorRejects (user : option User) (config : Config) : bool :=
  Js.truthy (user ≫= token)
  && match headers config with Some _ => false | None => true end.

(** The request interceptor works on the configuration object in place:
    this is the object after the interceptor ran, which is the value it
    returns unless [interceptorRejects].  The library hands it merged
    configurations (see [mergeConfig]), which always have headers. *)
Definition requestInterceptor (E : Env) (user : option User) (config : Config) : Config :=
  let config :=
    if Js.truthy (serverType config)
    then with_baseURL config (getBaseURLByServerType E (default "" (serverType config)))
    else with_baseURL config (API_GATEWAY_URL E) in
  let config :=
    if negb (bool_decide (method config = Some "get")) && negb (JsJson.truthy (data config))
    then with_data config (JObj [])
    else config in
  match user with
  | Some user =>
    if Js.truthy (token user) then
      let config := set_header "x-auth-token" (default "" (token user)) config in
      if Js.truthy (sessionId user)
      then set_header "x-session-id" (default "" (sessionId user)) config
      else config
    else config
  | None => config
  end.

Definition show (s : option string) : string := default "undefined" s.

(** The response interceptor, success side. *)
Definition responseFulfilled (response : Response) (w : World)
  : option Settled * World :=
  let requestKey :=
    show (method (resp_config response)) ++ ":" ++ show (url (resp_config response)) in
  (Some (Fulfilled response), delete_pending requestKey w).

Definition networkMessage (code : option string) : string :=
  Js.join " "
    (Js.filterBoolean
       [ "서버와 통신할 수 없습니다.";
         "네트워크 연결을 확인하고 잠시 후 다시 시도해주세요.";
         if Js.truthy code then "(Error: " ++ default "" code ++ ")" else "" ]).

Definition customError (error : AxiosError) (config : Config) : NormalizedError := {|
  ne_message := networkMessage (err_code error);
  ne_isNetworkError := true;
  ne_status := 0;
  ne_code := JStr (Js.or_else (err_code error) "NETWORK_ERROR");
  ne_data := JUndefined;
  ne_config := config;
  ne_originalError := error;
  ne_retry := config
|}.

(** [errorData?.message || fallback] as it ends up in the message of
    [new Error(...)]: any truthy value is kept, and converted to a string. *)
Definition messageOr (errorData : Json) (fallback : string) : string :=
  let message := JsJson.optProp errorData "message" in
  if JsJson.truthy message then Encoding.toString message else fallback.

Definition statusMessage (status : Z) (errorData : Json) : string :=
  if Z.eqb status 400 then messageOr errorData "잘못된 요청입니다."
  else if Z.eqb status 401 then "인증이 필요하거나 만료되었습니다."
  else if Z.eqb status 403 then messageOr errorData "접근 권한이 없습니다."
  else if Z.eqb status 404 then messageOr errorData "요청한 리소스를 찾을 수 없습니다."
  else if Z.eqb status 408 then "요청 시간이 초과되었습니다."
  else if Z.eqb status 429 then "너무 많은 요청이 발생했습니다. 잠시 후 다시 시도해주세요."
  else if Z.eqb status 500 then "서버 오류가 발생했습니다. 잠시 후 다시 시도해주세요."
  else if Z.eqb status 502 || Z.eqb status 503 || Z.eqb status 504
  then "서버가 일시적으로 응답할 수 없습니다. 잠시 후 다시 시도해주세요."
  else messageOr errorData "예기치 않은 오류가 발생했습니다.".

Definition enhancedError (error : AxiosError) (response : Response) (config : Config)
  : NormalizedError := {|
  ne_message := statusMessage (status response) (resp_data response);
  ne_isNetworkError := false;
  ne_status := status response;
  ne_code := JsJson.optProp (resp_data response) "code";
  ne_data := resp_data response;
  ne_config := config;
  ne_originalError := error;
  ne_retry := config
|}.

(** The [catch (refreshError)] block of the 401 branch. *)
Definition refreshFailed (E : Env) (w : World) : World :=
  let w := emit EvLogout w in
  if hasWindow E then emit (EvNavigate "/?error=session_expired") w else w.

(** [config] is [error.config] itself when the error has one: what the
    handler writes to [config] is seen through [error.config]. *)
Definition write_back (error : AxiosError) (config : Config) : AxiosError := {|
  err_message := err_message error;
  err_code := err_code error;
  err_response := err_response error;
  err_request := err_request error;
  err_config := option_map (fun _ => config) (err_config error);
  err_cancel := err_cancel error
|}.

(** The response interceptor, failure side.  [axiosInstance] is the instance
    the handler re-enters; console output is not modelled. *)
Definition responseRejected (E : Env)
    (axiosInstance : Config -> World -> option Settled * World)
    (error : AxiosError) (w : World) : option Settled * World :=
  let config := default emptyConfig (err_config error) in
  let count := default 0 (retryCount config) in
  let config := with_retryCount config (Some count) in
  let error := write_back error config in
  if err_cancel error then (Some (Rejected (ThrownAxios error)), w)
  else if isRetryableError (Some error) && (count <? maxRetries RETRY_CONFIG)%nat then
    let config := with_retryCount config (Some (S count)) in
    let delay := getRetryDelay (S count) (mathRandom E (randoms w)) in
    let w := emit (EvDelay delay) (tick_randoms w) in
    axiosInstance config w
  else
    match err_response error with
    | None => (Some (Rejected (ThrownNormalized (customError error config))), w)
    | Some response =>
      let enhanced := ThrownNormalized (enhancedError error response config) in
      if Z.eqb (status response) 401 then
        let w := emit EvRefresh w in
        match refreshToken E (refreshes w) with
        | RefreshReturns refreshed user =>
          let w := refreshed_world user w in
          if refreshed && Js.truthy (user ≫= token) then
            match headers config with
            | Some h =>
              axiosInstance
                (with_headers config
                   (Some (<[ "x-auth-token" := default "" (user ≫= token) ]> h))) w
            | None => (Some (Rejected enhanced), refreshFailed E w)
            end
          else (Some (Rejected enhanced), w)
        | RefreshThrows =>
          (Some (Rejected enhanced), refreshFailed E (refreshed_world (currentUser w) w))
        end
      else (Some (Rejected enhanced), w)
    end.

Definition makeError (config : Config) (message : string) (code : option string)
    (response : option (Z * Json)) (request cancel : bool) : AxiosError := {|
  err_message := message;
  err_code := code;
  err_response :=
    option_map (fun r => {| status := fst r; resp_data := snd r; resp_config := config |})
               response;
  err_request := request;
  err_config := Some config;
  err_cancel := cancel
|}.

(** [axiosInstance(config)]: the request interceptor, one transport attempt,
    then the response interceptor.  The interceptor is run on the merged
    configuration, which has headers, so it returns.  The handler re-enters
    the instance, so the recursion is bounded by [fuel]; the result [None]
    is "still pending when the fuel ran out", with the world reached so
    far. *)
Fixpoint axiosInstance (E : Env) (fuel : nat) (config : Config) (w : World)
  : option Settled * World :=
  match fuel with
  | O => (None, w)
  | S fuel =>
    let config := requestInterceptor E (currentUser w) (mergeConfig config) in
    let outcome := transport E (sent w) config in
    let w := emit (EvSend config) (tick_sent w) in
    match outcome with
    | RawOk st body =>
      responseFulfilled {| status := st; resp_data := body; resp_config := config |} w
    | RawFail message code response request cancel =>
      responseRejected E (axiosInstance E fuel)
        (makeError config message code response request cancel) w
    end
  end.

(** ** The file service *)

Module FileService.

(** The [File] handed to the upload. *)
Record File := {
  name : string;
  type : string;
  size : Z
}.

(** A stored file as the preview functions read it: [file.filename]. *)
Record StoredFile := { filename : option string }.

(** A parsed [URL]: [u_base] is the serialization of everything before the
    query, [u_query] the list behind [searchParams], [u_hash] the fragment
    with its [#] (empty when there is none). *)
Record URL := {
  u_base : string;
  u_query : list (string * string);
  u_hash : string
}.

Definition searchParams_append (k v : string) (u : URL) : URL :=
  {| u_base := u_base u; u_query := u_query u ++ [(k, v)]; u_hash := u_hash u |}.

Definition URL_toString (u : URL) : string :=
  u_base u
  ++ match u_query u with
     | [] => ""
     | q => "?" ++ Encoding.serializeParams q
     end
  ++ u_hash u.

Inductive HttpRequest :=
| Post (url : string) (body : Json) (headers : gmap string string)
| Put (url : Json) (body : File) (headers : gmap string string)
| Get (url : string) (headers : gmap string string)
| Delete (url : string) (headers : gmap string string).

Inductive Exception :=
| Error (message : string)
| TypeError
| HttpFailure (status : Z).

Inductive HttpOutcome :=
| HttpOk (data : Json)
| HttpFail (e : Exception).

(** The collaborators of the service: the process environment, the
    transport behind plain [axios] (the outcome of the k-th request) and
    the platform's URL parser ([None] when [new URL] throws). *)
Record Env := {
  NEXT_PUBLIC_API_GATEWAY_URL : option string;
  http : nat -> HttpRequest -> HttpOutcome;
  parseURL : string -> option URL
}.

Record World := {
  currentUser : option User;
  requests : list HttpRequest;
  toasts : list string
}.

(** The structured results [{success, message}] and [{success, data}]. *)
Record Result := {
  success : bool;
  message : option string;
  data : option Json
}.

Record Service := {
  baseUrl : option string;
  uploadLimit : Z
}.

Definition constructor (E : Env) : Service := {|
  baseUrl := NEXT_PUBLIC_API_GATEWAY_URL E;
  uploadLimit := 50 * 1024 * 1024
|}.

(** *** A state and exception monad for the asynchronous methods *)

Inductive Outcome (A : Type) :=
| Return (a : A)
| Throw (e : Exception).
Arguments Return {A} a.
Arguments Throw {A} e.

Definition M (A : Type) : Type := World -> Outcome A * World.

Definition ret {A} (a : A) : M A := fun w => (Return a, w).
Definition throw {A} (e : Exception) : M A := fun w => (Throw e, w).
Definition bind {A B} (m : M A) (k : A -> M B) : M B :=
  fun w => match m w with
           | (Return a, w) => k a w
           | (Throw e, w) => (Throw e, w)
           end.

Notation "x <- m ;; k" := (bind m (fun x => k))
  (at level 100, m at next level, right associativity).
Notation "m ;;; k" := (bind m (fun _ => k))
  (at level 100, right associativity).

Definition getCurrentUser : M (option User) := fun w => (Return (currentUser w), w).

Definition Toast_error (msg : string) : M unit :=
  fun w => (Return tt,
            {| currentUser := currentUser w; requests := requests w;
               toasts := toasts w ++ [msg] |}).

Definition push_request (r : HttpRequest) (w : World) : World :=
  {| currentUser := currentUser w; requests := requests w ++ [r];
     toasts := toasts w |}.

Definition axios (E : Env) (r : HttpRequest) : M Json :=
  fun w =>
    match http E (length (requests w)) r with
    | HttpOk d => (Return d, push_request r w)
    | HttpFail e => (Throw e, push_request r w)
    end.

(** Property access that throws [TypeError] on [undefined] and [null]. *)
Definition get (j : Json) (k : string) : M Json :=
  match JsJson.prop j k with
  | Some v => ret v
  | None => throw TypeError
  end.

Definition field {A} (file : option File) (f : File -> A) : M A :=
  match file with
  | Some file => ret (f file)
  | None => throw TypeError
  end.

(** *** The methods *)

Definition sizes : list string := ["B"; "KB"; "MB"; "GB"; "TB"].

(** [Math.floor(Math.log(bytes) / Math.log(1024))] on an integer count
    with [0 < bytes < 2^53].  The two logarithms and their quotient are
    rounded to doubles.  The rounding matters only where the exact quotient
    is within a few units of the last place of an integer, and among the
    integers below [2^53] that happens just below [1024^5]: for the three
    counts [1024^5 - 3 .. 1024^5 - 1] the quotient rounds up to 5.  For
    every other count the floor is the integer base-1024 logarithm. *)
Definition floorLog1024 (bytes : Z) : Z :=
  if (1024 ^ 5 - 3 <=? bytes)%Z && (bytes <? 1024 ^ 5)%Z then 5%Z
  else (Z.log2 bytes / 10)%Z.

(** [formatFileSize(bytes)] on an integer byte count below [2^53]; a
    negative count gives [NaN] throughout. *)
Definition formatFileSize (bytes : Z) : string :=
  if (bytes =? 0)%Z then "0 B"
  else if (bytes <? 0)%Z then "NaN undefined"
  else
    let i := floorLog1024 bytes in
    Encoding.toFixed2 bytes (1024 ^ i)
    ++ " " ++ default "undefined" (sizes !! Z.to_nat i).

Definition validateFile (S : Service) (file : option File) : M Result :=
  match file with
  | None =>
    Toast_error "파일이 선택되지 않았습니다." ;;;
    ret {| success := false; message := Some "파일이 선택되지 않았습니다.";
           data := None |}
  | Some f =>
    if (size f >? uploadLimit S)%Z then
      Toast_error ("파일 크기는 " ++ formatFileSize (uploadLimit S)
                   ++ "를 초과할 수 없습니다.") ;;;
      ret {| success := false; message := Some "파일 크기 초과"; data := None |}
    else ret {| success := true; message := None; data := None |}
  end.

Definition initializeUpload (E : Env) (S : Service) (file : option File) : M Json :=
  user <- getCurrentUser ;;
  if negb (Js.truthy (user ≫= token)) then throw (Error "인증 정보가 없습니다.")
  else
    let preURL := show (baseUrl S) ++ "/upload/init" in
    originalname <- field file name ;;
    mimetype <- field file type ;;
    sz <- field file size ;;
    response <- axios E
      (Post preURL
         (JObj [("originalname", JStr originalname); ("mimetype", JStr mimetype);
                ("size", JNum sz)])
         {[ "x-auth-token" := default "" (user ≫= token);
            "Content-Type" := "application/json" ]}) ;;
    get response "data".

(** [uploadToS3(uploadUrl, file, onProgress)]; the progress callback is
    driven by the transport and is not modelled. *)
Definition uploadToS3 (E : Env) (uploadUrl : Json) (file : option File) : M unit :=
  contentType <- field file type ;;
  match file with
  | Some f => axios E (Put uploadUrl f {[ "Content-Type" := contentType ]}) ;;; ret tt
  | None => throw TypeError
  end.

Definition completeUpload (E : Env) (S : Service) (uploadId : Json) : M Json :=
  user <- getCurrentUser ;;
  if negb (Js.truthy (user ≫= token)) then throw (Error "인증 정보가 없습니다.")
  else
    let completeURL :=
      show (baseUrl S) ++ "/upload/complete/" ++ Encoding.toString uploadId in
    response <- axios E
      (Post completeURL (JObj []) {[ "x-auth-token" := default "" (user ≫= token) ]}) ;;
    d <- get response "data" ;;
    get d "file".

Definition uploadFile (E : Env) (S : Service) (file : option File) : M Result :=
  validation <- validateFile S file ;;
  if negb (success validation) then ret validation
  else
    uploadData <- initializeUpload E S file ;;
    uploadUrl <- get uploadData "uploadUrl" ;;
    uploadToS3 E uploadUrl file ;;;
    uploadId <- get uploadData "uploadId" ;;
    uploadedFileData <- completeUpload E S uploadId ;;
    ret {| success := true; message := None; data := Some uploadedFileData |}.

Definition getFileInfo (E : Env) (S : Service) (fileId : Json) : M Json :=
  user <- getCurrentUser ;;
  if negb (Js.truthy (user ≫= token)) then throw (Error "인증 정보가 없습니다.")
  else
    let fileInfoURL := show (baseUrl S) ++ "/files/" ++ Encoding.toString fileId in
    response <- axios E
      (Get fileInfoURL {[ "x-auth-token" := default "" (user ≫= token) ]}) ;;
    d <- get response "data" ;;
    get d "file".

Definition deleteFile (E : Env) (S : Service) (fileId : Json) : M Json :=
  user <- getCurrentUser ;;
  if negb (Js.truthy (user ≫= token)) then throw (Error "인증 정보가 없습니다.")
  else
    let deleteURL := show (baseUrl S) ++ "/files/" ++ Encoding.toString fileId in
    response <- axios E
      (Delete deleteURL {[ "x-auth-token" := default "" (user ≫= token) ]}) ;;
    ret response.

Definition getFileUrl (S : Service) (user : option User)
    (filename : option string) (forPreview withAuth : bool) : Outcome string :=
  if negb (Js.truthy filename) then Throw (Error "파일 이름이 제공되지 않았습니다.")
  else
    let endpoint := if forPreview then "view" else "download" in
    let url := show (baseUrl S) ++ "/api/files/" ++ endpoint ++ "/" ++ show filename in
    if withAuth && Js.truthy (user ≫= token) then
      let params := [("token", default "" (user ≫= token))] in
      let params :=
        if Js.truthy (user ≫= sessionId)
        then (params ++ [("sessionId", default "" (user ≫= sessionId))])%list
        else params in
      Return (url ++ "?" ++ Encoding.serializeParams params)
    else Return url.

Definition getPreviewUrl (E : Env) (S : Service) (user : option User)
    (file : option StoredFile) (withAuth : bool) : Outcome string :=
  if negb (Js.truthy (file ≫= filename))
  then Throw (Error "파일 정보가 제공되지 않았습니다.")
  else
    let base :=
      Js.or_else (baseUrl S) (Js.or_else (NEXT_PUBLIC_API_GATEWAY_URL E) "") in
    let previewUrl := base ++ "/api/files/view/" ++ show (file ≫= filename) in
    if withAuth then
      if negb (Js.truthy (user ≫= token)) || negb (Js.truthy (user ≫= sessionId))
      then Throw (Error "인증 정보가 없습니다.")
      else
        match parseURL E previewUrl with
        | None => Throw TypeError
        | Some url =>
          let url := searchParams_append "token"
                       (Encoding.encodeURIComponent (default "" (user ≫= token))) url in
          let url := searchParams_append "sessionId"
                       (Encoding.encodeURIComponent (default "" (user ≫= sessionId))) url in
          Return (URL_toString url)
        end
    else Return previewUrl.

(** *** The three requests of an upload, as the methods build them *)

Definition initRequest (S : Service) (f : File) (tok : string) : HttpRequest :=
  Post (show (baseUrl S) ++ "/upload/init")
       (JObj [("originalname", JStr (name f)); ("mimetype", JStr (type f));
              ("size", JNum (size f))])
       {[ "x-auth-token" := tok;
          "Content-Type" := "application/json" ]}.

Definition transferRequest (uploadUrl : Json) (f : File) : HttpRequest :=
  Put uploadUrl f {[ "Content-Type" := type f ]}.

Definition completeRequest (S : Service) (uploadId : Json) (tok : string) : HttpRequest :=
  Post (show (baseUrl S) ++ "/upload/complete/" ++ Encoding.toString uploadId)
       (JObj []) {[ "x-auth-token" := tok ]}.

End FileService.

(** ** Observations on traces and errors *)

(** The configurations of the transport attempts of a trace, in order. *)
Definition sends (tr : list Event) : list Config :=
  omap (fun ev => match ev with EvSend c => Some c | _ => None end) tr.

(** The attempt counter carried by a configuration. *)
Definition counter (c : Config) : nat := default 0 (retryCount c).

(** The counters of the transport attempts of a trace, in order. *)
Definition sentCounters (tr : list Event) : list nat := counter <$> sends tr.


(** The handler's [config] after [config.retryCount = config.retryCount || 0]. *)
Definition normalizedConfig (error : AxiosError) : Config :=
  let config := default emptyConfig (err_config error) in
  with_retryCount config (Some (counter config)).

(** The error object after that assignment. *)
Definition touched (error : AxiosError) : AxiosError :=
  write_back error (normalizedConfig error).

(** The guard of the retry branch. *)
Definition shouldRetry (error : AxiosError) : bool :=
  isRetryableError (Some error)
  && (counter (normalizedConfig error) <? maxRetries RETRY_CONFIG)%nat.

(** The backend never answers 401. *)
Definition no401 (E : Env) : Prop :=
  forall k c message code st body request cancel,
    transport E k c = RawFail message code (Some (st, body)) request cancel ->
    st <> 401%Z.

(** Every failure of the transport is an uncancelled, retryable one. *)
Definition allRetryable (E : Env) : Prop :=
  forall k c message code response request cancel,
    transport E k c = RawFail message code response request cancel ->
    cancel = false
    /\ isRetryableError (Some (makeError c message code response request cancel)) = true.

(** [error.retry()]: the replay capability of a normalised error. *)
Definition retry (E : Env) (fuel : nat) (e : NormalizedError) (w : World)
  : option Settled * World :=
  axiosInstance E fuel (ne_retry e) w.

(** The backoff before jitter and cap: [initialDelay * backoffFactor^n]. *)
Definition uncappedDelay (n : nat) : Q :=
  (initialDelayMs RETRY_CONFIG * backoffFactor RETRY_CONFIG ^ Z.of_nat n)%Q.

(** The transport code is one of the retryable codes. *)
Definition retryableCode (e : AxiosError) : Prop :=
  exists c, err_code e = Some c /\ In c (retryableErrors RETRY_CONFIG).

(** The response status is one of the retryable statuses. *)
Definition retryableStatus (e : AxiosError) : Prop :=
  exists r, err_response e = Some r /\ In (status r) (retryableStatuses RETRY_CONFIG).

(** No response was received although the request had been sent. *)
Definition sentUnanswered (e : AxiosError) : Prop :=
  err_response e = None /\ err_request e = true.

(** The backoff waits of a trace, in order. *)
Definition delays (tr : list Event) : list Q :=
  omap (fun ev => match ev with EvDelay d => Some d | _ => None end) tr.

(** The events of a trace that are not transport attempts or waits: the
    calls to [authService] and the navigation. *)
Definition authEvents (tr : list Event) : list Event :=
  List.filter (fun ev => match ev with
                         | EvRefresh | EvLogout | EvNavigate _ => true
                         | _ => false
                         end) tr.

(** [config.headers[k]]. *)
Definition header (config : Config) (k : string) : option string :=
  headers config ≫= (fun h => h !! k).

(** What the transport receives for a configuration handed to the
    instance. *)
Definition prepared (E : Env) (user : option User) (config : Config) : Config :=
  requestInterceptor E user (mergeConfig config).

(** Every value of [Math.random()] lies in [0, 1]. *)
Definition unitRandom (E : Env) : Prop :=
  forall k, (0 <= mathRandom E k)%Q /\ (mathRandom E k <= 1)%Q.

(** The specification's reading of [formatFileSize]: the numeric part cut
    after two decimal places.  It is compared with the source's
    [FileService.formatFileSize]. *)
Module Spec.



End Spec.

(** ** Concrete inputs used to exercise the properties *)

Module Sample.

Definition http_error_401 : AxiosError := {|
  err_message := "Request failed with status code 401";
  err_code := Some "ERR_BAD_REQUEST";
  err_response := Some {| status := 401; resp_data := JNull; resp_config := emptyConfig |};
  err_request := true;
  err_config := Some emptyConfig;
  err_cancel := false
|}.

Definition http_error_503 : AxiosError := {|
  err_message := "Request failed with status code 503";
  err_code := Some "ERR_BAD_RESPONSE";
  err_response := Some {| status := 503; resp_data := JNull; resp_config := emptyConfig |};
  err_request := true;
  err_config := Some emptyConfig;
  err_cancel := false
|}.

Definition request : Config := {|
  method := Some "get"; url := Some "/rooms"; serverType := Some "chatServer";
  baseURL := None; headers := None; data := JUndefined; retryCount := None
|}.

Definition anyEnv (transport : nat -> Config -> RawOutcome)
    (refreshToken : nat -> RefreshOutcome) : Env := {|
  API_GATEWAY_URL := Some "https://api.example";
  CHAT_SERVER_URL := Some "https://chat.example";
  transport := transport;
  refreshToken := refreshToken;
  mathRandom := fun _ => (1 # 2)%Q;
  hasWindow := true
|}.

(** The backend answers 401 to everything and the refresh resolves to
    [false]. *)
Definition expired : Env :=
  anyEnv (fun _ _ => RawFail "Request failed with status code 401"
                             (Some "ERR_BAD_REQUEST") (Some (401%Z, JNull)) true false)
         (fun _ => RefreshReturns false None).

(** The backend answers 503 to everything. *)
Definition unavailable : Env :=
  anyEnv (fun _ _ => RawFail "Request failed with status code 503"
                             (Some "ERR_BAD_RESPONSE") (Some (503%Z, JNull)) true false)
         (fun _ => RefreshThrows).

(** A failure without response that is not retried any more. *)
Definition unreachable : AxiosError := {|
  err_message := "Network Error";
  err_code := Some "ERR_NETWORK";
  err_response := None;
  err_request := true;
  err_config := Some (with_retryCount request (Some 3));
  err_cancel := false
|}.

(** A cancelled request: no response, [axios.isCancel] holds. *)
Definition cancelled : AxiosError := {|
  err_message := "canceled";
  err_code := Some "ERR_CANCELED";
  err_response := None;
  err_request := true;
  err_config := Some request;
  err_cancel := true
|}.

Definition session : User :=
  {| token := Some "tok/1"; sessionId := Some "sid 7" |}.

Definition picture : FileService.File :=
  {| FileService.name := "cat.png"; FileService.type := "image/png";
     FileService.size := 2048 |}.

Definition oversized : FileService.File :=
  {| FileService.name := "film.mkv"; FileService.type := "video/x-matroska";
     FileService.size := 50 * 1024 * 1024 + 1 |}.

Definition initAnswer : Json :=
  JObj [("data", JObj [("uploadUrl", JStr "https://bucket.example/put?sig=1");
                       ("uploadId", JStr "u-17")])].

Definition completeAnswer : Json :=
  JObj [("data", JObj [("file", JObj [("filename", JStr "cat-17.png")])])].

(** A parser that accepts every address and finds no query and no
    fragment in it. *)
Definition plainURL (s : string) : option FileService.URL :=
  Some {| FileService.u_base := s; FileService.u_query := [];
          FileService.u_hash := "" |}.

(** A backend that answers the three upload requests in turn. *)
Definition backend : FileService.Env := {|
  FileService.NEXT_PUBLIC_API_GATEWAY_URL := Some "https://api.example";
  FileService.http := fun k _ =>
    match k with
    | O => FileService.HttpOk initAnswer
    | S O => FileService.HttpOk (JStr "")
    | _ => FileService.HttpOk completeAnswer
    end;
  FileService.parseURL := plainURL
|}.

Definition idle (user : option User) : FileService.World :=
  {| FileService.currentUser := user; FileService.requests := [];
     FileService.toasts := [] |}.

End Sample.

(** ** Behaviours of the backend and further concrete inputs *)

(** The n-th transport attempt fails with an uncancelled, retryable
    failure, whatever the configuration. *)
Definition failsRetryably (E : Env) (n : nat) : Prop :=
  forall c, exists message code response request,
    transport E n c = RawFail message code response request false
    /\ isRetryableError (Some (makeError c message code response request false)) = true.

(** The n-th transport attempt succeeds, whatever the configuration. *)
Definition succeeds (E : Env) (n : nat) : Prop :=
  forall c, exists st body, transport E n c = RawOk st body.

(** Every backoff wait of a trace lies between [initialDelay * backoffFactor]
    and [maxDelay]. *)
Definition backoffWithin (tr : list Event) : Prop :=
  Forall (fun d => (uncappedDelay 1 <= d)%Q /\ (d <= maxDelayMs RETRY_CONFIG)%Q)
         (delays tr).

Module Scenario.

(** Two 503 answers, then 200. *)
Definition flaky : Env :=
  Sample.anyEnv
    (fun k _ => match k with
                | 0%nat | 1%nat =>
                  RawFail "Request failed with status code 503"
                          (Some "ERR_BAD_RESPONSE") (Some (503%Z, JNull)) true false
                | _ => RawOk 200 (JStr "ok")
                end)
    (fun _ => RefreshThrows).

(** 404 with a server message to everything. *)
Definition missing : Env :=
  Sample.anyEnv
    (fun _ _ => RawFail "Request failed with status code 404" (Some "ERR_BAD_REQUEST")
                        (Some (404%Z, JObj [("message", JStr "no such room")])) true false)
    (fun _ => RefreshThrows).

Definition renewed : User := {| token := Some "fresh"; sessionId := None |}.

(** 401 to the first attempt, 200 afterwards; the refresh succeeds. *)
Definition renewing : Env :=
  Sample.anyEnv
    (fun k _ => match k with
                | 0%nat =>
                  RawFail "Request failed with status code 401"
                          (Some "ERR_BAD_REQUEST") (Some (401%Z, JNull)) true false
                | _ => RawOk 200 (JStr "ok")
                end)
    (fun _ => RefreshReturns true (Some renewed)).

(** 401 to everything; the refresh rejects. *)
Definition revoked : Env :=
  Sample.anyEnv
    (fun _ _ => RawFail "Request failed with status code 401"
                        (Some "ERR_BAD_REQUEST") (Some (401%Z, JNull)) true false)
    (fun _ => RefreshThrows).


(** Every attempt is cancelled, after the request was sent. *)
Definition aborting : Env :=
  Sample.anyEnv
    (fun _ _ => RawFail "canceled" (Some "ERR_CANCELED") None true true)
    (fun _ => RefreshThrows).

(** A file-service backend whose k-th request fails and whose earlier
    requests are answered as by [Sample.backend]. *)
Definition failingAt (n : nat) : FileService.Env := {|
  FileService.NEXT_PUBLIC_API_GATEWAY_URL := Some "https://api.example";
  FileService.http := fun k r =>
    if (k =? n)%nat then FileService.HttpFail (FileService.HttpFailure 500)
    else FileService.http Sample.backend k r;
  FileService.parseURL := Sample.plainURL
|}.

(** A file-service backend that answers every request with an empty
    object. *)
Definition emptyAnswers : FileService.Env := {|
  FileService.NEXT_PUBLIC_API_GATEWAY_URL := Some "https://api.example";
  FileService.http := fun _ _ => FileService.HttpOk (JObj []);
  FileService.parseURL := Sample.plainURL
|}.

(** A file-service backend that answers every request with a file record. *)
Definition store : FileService.Env := {|
  FileService.NEXT_PUBLIC_API_GATEWAY_URL := Some "https://api.example";
  FileService.http := fun _ _ => FileService.HttpOk Sample.completeAnswer;
  FileService.parseURL := Sample.plainURL
|}.

End Scenario.

(** * Properties *)

(** ** Strings *)

Section Strings.

Lemma append_cons (x : ascii) (a b : string) : String x a ++ b = String x (a ++ b).
Proof. reflexivity. Qed.

Lemma append_assoc (a b c : string) : (a ++ b) ++ c = a ++ (b ++ c).
Proof.
  induction a as [|x a IH]; [reflexivity|].
  now rewrite !append_cons, IH.
Qed.

Lemma append_nil_r (a : string) : a ++ "" = a.
Proof.
  induction a as [|x a IH]; [reflexivity|].
  now rewrite append_cons, IH.
Qed.

End Strings.

(** ** The backoff delay *)

Section Delay.

Local Open Scope Q_scope.

Lemma uncappedDelay_nonneg (n : nat) : 0 <= uncappedDelay n.
Proof.
  unfold uncappedDelay. apply Qmult_le_0_compat.
  - discriminate.
  - apply Qpower_0_le. discriminate.
Qed.

Lemma jitter_expands (b u : Q) : 0 <= b -> 0 <= u -> b <= b * (1 + u * (1 # 10)).
Proof.
  intros Hb Hu.
  assert (H : b * 1 <= b * (1 + u * (1 # 10))).
  { rewrite !(Qmult_comm b). apply Qmult_le_compat_r; [|exact Hb].
    rewrite <- (Qplus_0_r 1) at 1. apply Qplus_le_r.
    apply Qmult_le_0_compat; [exact Hu | discriminate]. }
  now rewrite Qmult_1_r in H.
Qed.

(** C1, as amended: for every retry count and every value of
    [Math.random()] in [0, 1] (a jitter factor in [0, 0.1]) the delay lies
    between [min(initialDelay * backoffFactor^n, maxDelay)] and [maxDelay];
    the uncapped lower bound [initialDelay * backoffFactor^n] holds
    whenever it does not itself exceed [maxDelay]. *)
Theorem getRetryDelay_bounds (n : nat) (u : Q) :
  0 <= u -> u <= 1 ->
  Qmin (uncappedDelay n) (maxDelayMs RETRY_CONFIG) <= getRetryDelay n u
  /\ getRetryDelay n u <= maxDelayMs RETRY_CONFIG
  /\ (uncappedDelay n <= maxDelayMs RETRY_CONFIG -> uncappedDelay n <= getRetryDelay n u).
Proof.
  intros Hu _.
  assert (Hlow : uncappedDelay n <= uncappedDelay n * (1 + u * (1 # 10)))
    by (apply jitter_expands; [apply uncappedDelay_nonneg | exact Hu]).
  unfold getRetryDelay. fold (uncappedDelay n). cbv zeta.
  split; [|split].
  - apply Q.min_le_compat_r. exact Hlow.
  - apply Q.le_min_r.
  - intros Hcap. apply Q.min_glb; assumption.
Qed.

Lemma getRetryDelay_bounds_witness :
  Qmin (uncappedDelay 1) (maxDelayMs RETRY_CONFIG) <= getRetryDelay 1 (1 # 2)
  /\ getRetryDelay 1 (1 # 2) <= maxDelayMs RETRY_CONFIG
  /\ (uncappedDelay 1 <= maxDelayMs RETRY_CONFIG -> uncappedDelay 1 <= getRetryDelay 1 (1 # 2)).
Proof. apply (getRetryDelay_bounds 1 (1 # 2)); discriminate. Defined.

(** C1, as stated, fails at the third retry without jitter: the delay is
    capped at 5000 ms, below [1000 * 2^3 = 8000]. *)
Lemma getRetryDelay_lower_bound_fails :
  ~ (uncappedDelay 3 <= getRetryDelay 3 0
     /\ getRetryDelay 3 0 <= maxDelayMs RETRY_CONFIG).
Proof. intros [H _]. apply H. reflexivity. Qed.

End Delay.

(** ** The retry classification *)

Section Classification.

Lemma includes_In (l : list string) (x : string) :
  Js.includes l x = true <-> In x l.
Proof.
  induction l as [|y l IH]; simpl.
  - split; [discriminate | tauto].
  - rewrite orb_true_iff, IH, String.eqb_eq. tauto.
Qed.

Lemma includesZ_In (l : list Z) (x : Z) :
  Js.includesZ l x = true <-> In x l.
Proof.
  induction l as [|y l IH]; simpl.
  - split; [discriminate | tauto].
  - rewrite orb_true_iff, IH, Z.eqb_eq. tauto.
Qed.

Lemma retryable_code_truthy (c : string) :
  In c (retryableErrors RETRY_CONFIG) -> Js.truthy (Some c) = true.
Proof.
  simpl. intros H.
  repeat (destruct H as [<-|H]; [reflexivity|]). destruct H.
Qed.

Lemma retryable_status_nonzero (s : Z) :
  In s (retryableStatuses RETRY_CONFIG) -> negb (Z.eqb s 0) = true.
Proof.
  simpl. intros H.
  repeat (destruct H as [<-|H]; [reflexivity|]). destruct H.
Qed.

(** The first test of [isRetryableError] decides [retryableCode]. *)
Lemma code_test (e : AxiosError) :
  Js.truthy (err_code e)
  && Js.includes (retryableErrors RETRY_CONFIG) (default "" (err_code e)) = true
  <-> retryableCode e.
Proof.
  unfold retryableCode. split.
  - intros [_ H]%andb_true_iff. apply includes_In in H.
    destruct (err_code e) as [c|]; simpl in H.
    + exists c. auto.
    + exfalso. repeat (destruct H as [H|H]; [discriminate|]). destruct H.
  - intros (c & -> & H). apply andb_true_iff. split.
    + now apply retryable_code_truthy.
    + now apply includes_In.
Qed.

(** The second test of [isRetryableError] decides [retryableStatus]. *)
Lemma status_test (e : AxiosError) :
  match err_response e with
  | Some r => negb (Z.eqb (status r) 0)
              && Js.includesZ (retryableStatuses RETRY_CONFIG) (status r)
  | None => false
  end = true
  <-> retryableStatus e.
Proof.
  unfold retryableStatus. destruct (err_response e) as [r|]; split.
  - intros [_ H]%andb_true_iff. exists r. split; [reflexivity|].
    now apply includesZ_In.
  - intros (r' & [= <-] & H). apply andb_true_iff. split.
    + now apply retryable_status_nonzero.
    + now apply includesZ_In.
  - discriminate.
  - intros (r & [=] & _).
Qed.

Lemma isRetryableError_iff (e : AxiosError) :
  isRetryableError (Some e) = true
  <-> retryableCode e \/ retryableStatus e \/ sentUnanswered e.
Proof.
  rewrite <- code_test, <- status_test. unfold isRetryableError, sentUnanswered.
  destruct (Js.truthy (err_code e) && _); [tauto|].
  destruct (err_response e) as [r|].
  - destruct (negb _ && _); intuition congruence.
  - destruct (err_request e); intuition congruence.
Qed.

(** C3: a failure is retryable exactly when its transport code is one of
    the retryable codes, or its response status is one of 408, 429, 500,
    502, 503, 504, or no response arrived although the request was sent.
    Hence a response with status 429 or 503 is always retryable, and a
    response with status 400, 401, 403 or 404 is not retryable unless the
    transport code of the failure is itself a retryable one. *)
Theorem isRetryableError_exactly :
  retryableStatuses RETRY_CONFIG = [408; 429; 500; 502; 503; 504]%Z
  /\ (forall e : AxiosError,
        isRetryableError (Some e) = true
        <-> retryableCode e \/ retryableStatus e \/ sentUnanswered e)
  /\ (forall (e : AxiosError) (r : Response),
        err_response e = Some r -> In (status r) [429; 503]%Z ->
        isRetryableError (Some e) = true)
  /\ (forall (e : AxiosError) (r : Response),
        err_response e = Some r -> In (status r) [400; 401; 403; 404]%Z ->
        ~ retryableCode e ->
        isRetryableError (Some e) = false).
Proof.
  split; [reflexivity|]. split; [exact isRetryableError_iff|]. split.
  - intros e r Hr Hs. apply isRetryableError_iff. right. left.
    exists r. split; [exact Hr|].
    simpl in *. destruct Hs as [<-|[<-|[]]]; tauto.
  - intros e r Hr Hs Hc. apply not_true_is_false.
    intros [H|[(r' & Hr' & H)|[H _]]]%isRetryableError_iff.
    + contradiction.
    + rewrite Hr in Hr'. injection Hr' as <-.
      simpl in *. destruct Hs as [Hs|[Hs|[Hs|[Hs|[]]]]]; rewrite <- Hs in H;
        repeat (destruct H as [H|H]; [discriminate|]); destruct H.
    + congruence.
Qed.

Lemma isRetryableError_exactly_witness :
  isRetryableError (Some Sample.http_error_503) = true
  /\ isRetryableError (Some Sample.http_error_401) = false.
Proof.
  destruct isRetryableError_exactly as (_ & _ & Hyes & Hno). split.
  - apply (Hyes Sample.http_error_503 _ eq_refl). simpl. tauto.
  - apply (Hno Sample.http_error_401 _ eq_refl).
    + simpl. tauto.
    + intros (c & [= <-] & H). simpl in H.
      repeat (destruct H as [H|H]; [discriminate|]). destruct H.
Defined.

End Classification.

(** ** Byte-count formatting *)

Section Formatting.

Import FileService.
Local Open Scope Z_scope.

Lemma log1024_bounds (bytes : Z) :
  0 < bytes ->
  let i := Z.log2 bytes / 10 in
  0 <= i /\ 1024 ^ i <= bytes < 1024 ^ (i + 1).
Proof.
  intros Hpos i.
  pose proof (Z.log2_spec bytes Hpos) as [Hlo Hhi].
  pose proof (Z.log2_nonneg bytes) as Hl.
  assert (Hi : 0 <= i) by (apply Z.div_pos; lia).
  assert (Hdm : 10 * i <= Z.log2 bytes < 10 * i + 10).
  { subst i. pose proof (Z.mod_pos_bound (Z.log2 bytes) 10 ltac:(lia)).
    pose proof (Z.div_mod (Z.log2 bytes) 10 ltac:(lia)). lia. }
  change 1024 with (2 ^ 10). rewrite <- !Z.pow_mul_r by lia.
  split; [exact Hi|]. split.
  - apply Z.le_trans with (2 ^ Z.log2 bytes); [|exact Hlo].
    apply Z.pow_le_mono_r; lia.
  - apply Z.lt_le_trans with (2 ^ Z.succ (Z.log2 bytes)); [exact Hhi|].
    apply Z.pow_le_mono_r; lia.
Qed.


Lemma floorLog1024_exact (bytes : Z) :
  bytes < 1024 ^ 5 - 3 \/ 1024 ^ 5 <= bytes ->
  floorLog1024 bytes = Z.log2 bytes / 10.
Proof.
  intros H. unfold floorLog1024.
  destruct (Z.leb_spec (1024 ^ 5 - 3) bytes); [|reflexivity].
  destruct (Z.ltb_spec bytes (1024 ^ 5)); [lia | reflexivity].
Qed.

(** The three counts just below 1024^5, where the rounded quotient is 5. *)
Lemma formatFileSize_rounded_up (bytes : Z) :
  1024 ^ 5 - 3 <= bytes < 1024 ^ 5 ->
  formatFileSize bytes = "1.00 undefined"%string.
Proof.
  intros H.
  assert (Hcases : bytes = 1024 ^ 5 - 3 \/ bytes = 1024 ^ 5 - 2 \/ bytes = 1024 ^ 5 - 1)
    by lia.
  destruct Hcases as [->|[->| ->]]; reflexivity.
Qed.




End Formatting.

(** ** The upload protocol *)

Section Upload.

Import FileService.
Local Open Scope Z_scope.

Variable E : FileService.Env.

(** C6: for a missing file and for a file larger than 50 MiB, [uploadFile]
    returns the structured result [{success: false, message}] without
    raising, after one notification and no network request. *)
Theorem uploadFile_rejects_without_network (file : option File) (w : World) :
  (file = None \/ exists f, file = Some f /\ size f > 50 * 1024 * 1024) ->
  exists msg note : string,
    uploadFile E (constructor E) file w
    = (Return {| success := false; message := Some msg; data := None |},
       {| currentUser := currentUser w; requests := requests w;
          toasts := toasts w ++ [note] |}).
Proof.
  intros [->|(f & -> & Hsize)].
  - do 2 eexists. reflexivity.
  - do 2 eexists. unfold uploadFile, validateFile, bind.
    change (uploadLimit (constructor E)) with (50 * 1024 * 1024).
    destruct (Z.gtb_spec (size f) (50 * 1024 * 1024)) as [_|]; [|lia].
    reflexivity.
Qed.

Lemma truthy_Some (s : string) : s <> ""%string -> Js.truthy (Some s) = true.
Proof.
  intros Hne. simpl. destruct (String.eqb_spec s ""); [contradiction | reflexivity].
Qed.

Lemma axios_ok (r : HttpRequest) (w : World) (d : Json) :
  http E (length (requests w)) r = HttpOk d ->
  axios E r w = (Return d, push_request r w).
Proof. intros H. unfold axios. now rewrite H. Qed.

Lemma initializeUpload_ok (S : Service) (f : File) (w : World) (user : User)
    (tok : string) (answer uploadData : Json) :
  currentUser w = Some user -> token user = Some tok -> tok <> ""%string ->
  http E (length (requests w)) (initRequest S f tok) = HttpOk answer ->
  JsJson.prop answer "data" = Some uploadData ->
  initializeUpload E S (Some f) w
  = (Return uploadData, push_request (initRequest S f tok) w).
Proof.
  intros Huser Htok Hne Hhttp Hdata.
  unfold initializeUpload, bind, getCurrentUser, field, get, ret.
  rewrite Huser. cbn [mbind option_bind]. rewrite Htok, (truthy_Some tok Hne).
  cbn [negb from_option id]. fold (initRequest S f tok).
  rewrite (axios_ok _ _ _ Hhttp), Hdata. reflexivity.
Qed.

Lemma uploadToS3_ok (uploadUrl : Json) (f : File) (w : World) (answer : Json) :
  http E (length (requests w)) (transferRequest uploadUrl f) = HttpOk answer ->
  uploadToS3 E uploadUrl (Some f) w
  = (Return tt, push_request (transferRequest uploadUrl f) w).
Proof.
  intros Hhttp. unfold uploadToS3, bind, field, ret.
  fold (transferRequest uploadUrl f). now rewrite (axios_ok _ _ _ Hhttp).
Qed.

Lemma completeUpload_ok (S : Service) (uploadId : Json) (w : World) (user : User)
    (tok : string) (answer d fileRecord : Json) :
  currentUser w = Some user -> token user = Some tok -> tok <> ""%string ->
  http E (length (requests w)) (completeRequest S uploadId tok) = HttpOk answer ->
  JsJson.prop answer "data" = Some d ->
  JsJson.prop d "file" = Some fileRecord ->
  completeUpload E S uploadId w
  = (Return fileRecord, push_request (completeRequest S uploadId tok) w).
Proof.
  intros Huser Htok Hne Hhttp Hd Hfile.
  unfold completeUpload, bind, getCurrentUser, get, ret.
  rewrite Huser. cbn [mbind option_bind]. rewrite Htok, (truthy_Some tok Hne).
  cbn [negb from_option id]. fold (completeRequest S uploadId tok).
  rewrite (axios_ok _ _ _ Hhttp), Hd. cbv beta iota. rewrite Hfile. reflexivity.
Qed.

(** C5: for a present file of at most 50 MiB, with a session token
    available and a backend that answers the three requests,
    [uploadFile] issues exactly the requests init, transfer to the
    [uploadUrl] of the init answer, complete, in this order, and returns
    [{success: true, data}] with the file record of the complete answer. *)
Theorem uploadFile_three_requests
    (f : File) (w : World) (user : User) (tok : string)
    (initData uploadData uploadUrl uploadId putData completeData d fileRecord : Json) :
  size f <= 50 * 1024 * 1024 ->
  currentUser w = Some user -> token user = Some tok -> tok <> ""%string ->
  let S := constructor E in
  let k := length (requests w) in
  http E k (initRequest S f tok) = HttpOk initData ->
  JsJson.prop initData "data" = Some uploadData ->
  JsJson.prop uploadData "uploadUrl" = Some uploadUrl ->
  JsJson.prop uploadData "uploadId" = Some uploadId ->
  http E (k + 1) (transferRequest uploadUrl f) = HttpOk putData ->
  http E (k + 2) (completeRequest S uploadId tok) = HttpOk completeData ->
  JsJson.prop completeData "data" = Some d ->
  JsJson.prop d "file" = Some fileRecord ->
  uploadFile E S (Some f) w
  = (Return {| success := true; message := None; data := Some fileRecord |},
     {| currentUser := currentUser w;
        requests := requests w ++ [initRequest S f tok;
                                   transferRequest uploadUrl f;
                                   completeRequest S uploadId tok];
        toasts := toasts w |}).
Proof.
  intros Hsize Huser Htok Hne S k Hinit HinitData Hurl Hid Hput Hcomplete Hd Hfile.
  unfold uploadFile, validateFile, bind.
  change (uploadLimit S) with (50 * 1024 * 1024).
  destruct (Z.gtb_spec (size f) (50 * 1024 * 1024)) as [|_]; [lia|].
  cbn [ret success negb].
  rewrite (initializeUpload_ok S f w user tok initData uploadData
             Huser Htok Hne Hinit HinitData).
  unfold get. rewrite Hurl. cbn [ret].
  rewrite (uploadToS3_ok uploadUrl f _ putData).
  2:{ cbn [push_request requests]. rewrite length_app. exact Hput. }
  rewrite Hid. cbn [ret].
  rewrite (completeUpload_ok S uploadId
             (push_request (transferRequest uploadUrl f)
                (push_request (initRequest S f tok) w))
             user tok completeData d fileRecord Huser Htok Hne).
  2:{ cbn [push_request requests]. rewrite !length_app. cbn [length].
      replace (length (requests w) + 1 + 1)%nat with (k + 2)%nat by (subst k; lia).
      exact Hcomplete. }
  2: exact Hd. 2: exact Hfile.
  unfold push_request. cbn [currentUser requests toasts].
  rewrite <- !app_assoc. reflexivity.
Qed.

End Upload.

Lemma uploadFile_rejects_without_network_witness :
  exists msg note : string,
    FileService.uploadFile Sample.backend (FileService.constructor Sample.backend)
      (Some Sample.oversized) (Sample.idle (Some Sample.session))
    = (FileService.Return
         {| FileService.success := false; FileService.message := Some msg;
            FileService.data := None |},
       {| FileService.currentUser := Some Sample.session;
          FileService.requests := [];
          FileService.toasts := [] ++ [note] |}).
Proof.
  apply (uploadFile_rejects_without_network Sample.backend
           (Some Sample.oversized) (Sample.idle (Some Sample.session))).
  right. exists Sample.oversized. split; reflexivity.
Defined.

Lemma uploadFile_three_requests_witness :
  FileService.uploadFile Sample.backend (FileService.constructor Sample.backend)
    (Some Sample.picture) (Sample.idle (Some Sample.session))
  = (FileService.Return
       {| FileService.success := true; FileService.message := None;
          FileService.data := Some (JObj [("filename", JStr "cat-17.png")]) |},
     {| FileService.currentUser := Some Sample.session;
        FileService.requests :=
          [FileService.initRequest (FileService.constructor Sample.backend)
             Sample.picture "tok/1";
           FileService.transferRequest (JStr "https://bucket.example/put?sig=1")
             Sample.picture;
           FileService.completeRequest (FileService.constructor Sample.backend)
             (JStr "u-17") "tok/1"];
        FileService.toasts := [] |}).
Proof.
  apply (uploadFile_three_requests Sample.backend Sample.picture
           (Sample.idle (Some Sample.session)) Sample.session "tok/1"
           Sample.initAnswer
           (JObj [("uploadUrl", JStr "https://bucket.example/put?sig=1");
                  ("uploadId", JStr "u-17")])
           (JStr "https://bucket.example/put?sig=1") (JStr "u-17") (JStr "")
           Sample.completeAnswer
           (JObj [("file", JObj [("filename", JStr "cat-17.png")])])
           (JObj [("filename", JStr "cat-17.png")]));
    try reflexivity.
  - vm_compute. discriminate.
  - discriminate.
Defined.

(** ** Addresses of stored files *)

Section Addresses.

Import FileService.

Variable E : FileService.Env.
Variable S : Service.

Lemma truthy_false_token (user : option User) :
  Js.truthy (user ≫= token) = false ->
  forall b : bool, b && Js.truthy (user ≫= token) = false.
Proof. intros -> b. apply andb_false_r. Qed.

(** C10: without a session, or with a session that has no token,
    [getFileUrl(filename, forPreview, true)] returns the bare endpoint
    address for every (non-empty) file name and does not raise, whereas
    [getPreviewUrl] raises in the same situation. *)
Theorem getFileUrl_without_token
    (user : option User) (filename : string) (forPreview : bool) :
  filename <> "" ->
  Js.truthy (user ≫= token) = false ->
  getFileUrl S user (Some filename) forPreview true
  = Return (show (baseUrl S) ++ "/api/files/"
            ++ (if forPreview then "view" else "download") ++ "/" ++ filename)
  /\ getPreviewUrl E S user (Some {| FileService.filename := Some filename |}) true
     = Throw (Error "인증 정보가 없습니다.").
Proof.
  intros Hname Htoken. split.
  - unfold getFileUrl. rewrite (truthy_Some filename Hname).
    cbn [negb]. now rewrite (truthy_false_token user Htoken).
  - unfold getPreviewUrl. cbn [mbind option_bind FileService.filename].
    rewrite (truthy_Some filename Hname), Htoken. reflexivity.
Qed.

Lemma join_cons_cons (sep x y : string) (l : list string) :
  Js.join sep (x :: y :: l) = x ++ sep ++ Js.join sep (y :: l).
Proof. reflexivity. Qed.

Lemma join_ends_with (sep : string) (l : list string) (x y : string) :
  exists pre, Js.join sep (l ++ [x; y]) = pre ++ x ++ sep ++ y.
Proof.
  induction l as [|a l [pre IH]].
  - exists "". reflexivity.
  - exists (a ++ sep ++ pre).
    assert (Hcons : exists b t, (l ++ [x; y])%list = b :: t)
      by (destruct l; simpl; eauto).
    destruct Hcons as (b & t & Hbt).
    change ((a :: l) ++ [x; y])%list with (a :: (l ++ [x; y]))%list.
    rewrite Hbt, join_cons_cons, <- Hbt, IH.
    now rewrite !append_assoc.
Qed.

(** C7: [getPreviewUrl(file, true)] on a file with a name raises the
    missing-credentials error when there is no session or when the session
    lacks the token or the sessionId; with both present (and an address
    the platform accepts) it returns the address with the query
    parameters [token] and [sessionId], each carrying the encoded
    value. *)
Theorem getPreviewUrl_credentials (user : option User) (name : string) :
  name <> "" ->
  let file := Some {| FileService.filename := Some name |} in
  (Js.truthy (user ≫= token) = false \/ Js.truthy (user ≫= sessionId) = false ->
   getPreviewUrl E S user file true = Throw (Error "인증 정보가 없습니다."))
  /\ (forall (tok sid : string) (url : URL),
        user ≫= token = Some tok -> tok <> "" ->
        user ≫= sessionId = Some sid -> sid <> "" ->
        parseURL E (Js.or_else (baseUrl S)
                      (Js.or_else (NEXT_PUBLIC_API_GATEWAY_URL E) "")
                    ++ "/api/files/view/" ++ name) = Some url ->
        getPreviewUrl E S user file true
        = Return (u_base url ++ "?"
                  ++ Encoding.serializeParams
                       (u_query url
                        ++ [("token", Encoding.encodeURIComponent tok);
                            ("sessionId", Encoding.encodeURIComponent sid)])
                  ++ u_hash url)
        /\ exists pre post : string,
             getPreviewUrl E S user file true
             = Return (pre ++ "token="
                       ++ Encoding.formEncode (Encoding.encodeURIComponent tok)
                       ++ "&sessionId="
                       ++ Encoding.formEncode (Encoding.encodeURIComponent sid)
                       ++ post)).
Proof.
  intros Hname file. split.
  - intros Hmissing. unfold getPreviewUrl, file.
    cbn [mbind option_bind FileService.filename].
    rewrite (truthy_Some name Hname). cbn [negb].
    destruct Hmissing as [-> | ->]; [reflexivity|].
    now rewrite orb_true_r.
  - intros tok sid url Htok Htokne Hsid Hsidne Hparse.
    assert (Hret : getPreviewUrl E S user file true
                   = Return (u_base url ++ "?"
                             ++ Encoding.serializeParams
                                  (u_query url
                                   ++ [("token", Encoding.encodeURIComponent tok);
                                       ("sessionId", Encoding.encodeURIComponent sid)])
                             ++ u_hash url)).
    { unfold getPreviewUrl, file.
      cbn [mbind option_bind FileService.filename].
      rewrite (truthy_Some name Hname), Htok, Hsid.
      rewrite (truthy_Some tok Htokne), (truthy_Some sid Hsidne).
      cbn [negb orb show from_option id]. rewrite Hparse.
      unfold URL_toString, searchParams_append. cbn [u_base u_query u_hash].
      rewrite <- app_assoc. cbn [app].
      destruct (u_query url); reflexivity. }
    split; [exact Hret|]. rewrite Hret.
    unfold Encoding.serializeParams. rewrite map_app. cbn [map fst snd].
    destruct (join_ends_with "&" (map (fun kv => Encoding.formEncode (fst kv) ++ "="
                                                 ++ Encoding.formEncode (snd kv))
                                      (u_query url))
                (Encoding.formEncode "token" ++ "="
                 ++ Encoding.formEncode (Encoding.encodeURIComponent tok))
                (Encoding.formEncode "sessionId" ++ "="
                 ++ Encoding.formEncode (Encoding.encodeURIComponent sid)))
      as [pre ->].
    exists (u_base url ++ "?" ++ pre), (u_hash url).
    change (Encoding.formEncode "token") with "token".
    change (Encoding.formEncode "sessionId") with "sessionId".
    f_equal. rewrite !append_assoc. reflexivity.
Qed.

End Addresses.

Lemma getFileUrl_without_token_witness :
  FileService.getFileUrl (FileService.constructor Sample.backend) None
    (Some "cat.png") true true
  = FileService.Return "https://api.example/api/files/view/cat.png"
  /\ FileService.getPreviewUrl Sample.backend (FileService.constructor Sample.backend)
       None (Some {| FileService.filename := Some "cat.png" |}) true
     = FileService.Throw (FileService.Error "인증 정보가 없습니다.").
Proof.
  apply (getFileUrl_without_token Sample.backend
           (FileService.constructor Sample.backend) None "cat.png" true).
  - discriminate.
  - reflexivity.
Defined.

Lemma getPreviewUrl_credentials_witness :
  FileService.getPreviewUrl Sample.backend (FileService.constructor Sample.backend)
    None (Some {| FileService.filename := Some "cat.png" |}) true
  = FileService.Throw (FileService.Error "인증 정보가 없습니다.")
  /\ FileService.getPreviewUrl Sample.backend (FileService.constructor Sample.backend)
       (Some Sample.session) (Some {| FileService.filename := Some "cat.png" |}) true
     = FileService.Return
         "https://api.example/api/files/view/cat.png?token=tok%252F1&sessionId=sid%25207".
Proof.
  split.
  - destruct (getPreviewUrl_credentials Sample.backend
                (FileService.constructor Sample.backend) None "cat.png") as [H _].
    + discriminate.
    + apply H. left. reflexivity.
  - destruct (getPreviewUrl_credentials Sample.backend
                (FileService.constructor Sample.backend) (Some Sample.session) "cat.png")
      as [_ H].
    + discriminate.
    + destruct (H "tok/1" "sid 7"
                  {| FileService.u_base := "https://api.example/api/files/view/cat.png";
                     FileService.u_query := []; FileService.u_hash := "" |}
                  eq_refl ltac:(discriminate) eq_refl ltac:(discriminate) eq_refl)
        as [Hret _].
      exact Hret.
Defined.

(** ** The response handler, branch by branch *)

Section Handler.

Variable E : Env.
Variable instance : Config -> World -> option Settled * World.

(** The handler in terms of [normalizedConfig] and [shouldRetry]. *)
Lemma responseRejected_branches (error : AxiosError) (w : World) :
  responseRejected E instance error w
  = let config := normalizedConfig error in
    if err_cancel error then (Some (Rejected (ThrownAxios (touched error))), w)
    else if shouldRetry error then
      instance (with_retryCount config (Some (S (counter config))))
        (emit (EvDelay (getRetryDelay (S (counter config)) (mathRandom E (randoms w))))
              (tick_randoms w))
    else
      match err_response error with
      | None => (Some (Rejected (ThrownNormalized (customError (touched error) config))), w)
      | Some response =>
        let enhanced := ThrownNormalized (enhancedError (touched error) response config) in
        if Z.eqb (status response) 401 then
          match refreshToken E (refreshes w) with
          | RefreshReturns refreshed user =>
            let w := refreshed_world user (emit EvRefresh w) in
            if refreshed && Js.truthy (user ≫= token) then
              match headers config with
              | Some h =>
                instance
                  (with_headers config
                     (Some (<[ "x-auth-token" := default "" (user ≫= token) ]> h))) w
              | None => (Some (Rejected enhanced), refreshFailed E w)
              end
            else (Some (Rejected enhanced), w)
          | RefreshThrows =>
            (Some (Rejected enhanced),
                  refreshFailed E (refreshed_world (currentUser w) (emit EvRefresh w)))
          end
        else (Some (Rejected enhanced), w)
      end.
Proof. reflexivity. Qed.

Lemma responseRejected_cancel (error : AxiosError) (w : World) :
  err_cancel error = true ->
  responseRejected E instance error w = (Some (Rejected (ThrownAxios (touched error))), w).
Proof. intros H. rewrite responseRejected_branches. cbv zeta. now rewrite H. Qed.

Lemma responseRejected_retry (error : AxiosError) (w : World) :
  err_cancel error = false -> shouldRetry error = true ->
  responseRejected E instance error w
  = instance
      (with_retryCount (normalizedConfig error)
         (Some (S (counter (normalizedConfig error)))))
      (emit (EvDelay (getRetryDelay (S (counter (normalizedConfig error)))
                                    (mathRandom E (randoms w))))
            (tick_randoms w)).
Proof.
  intros Hc Hr. rewrite responseRejected_branches. cbv zeta. now rewrite Hc, Hr.
Qed.

Lemma responseRejected_network (error : AxiosError) (w : World) :
  err_cancel error = false -> shouldRetry error = false ->
  err_response error = None ->
  responseRejected E instance error w
  = (Some (Rejected (ThrownNormalized (customError (touched error) (normalizedConfig error)))), w).
Proof.
  intros Hc Hr Hn. rewrite responseRejected_branches. cbv zeta.
  now rewrite Hc, Hr, Hn.
Qed.

Lemma responseRejected_http (error : AxiosError) (response : Response) (w : World) :
  err_cancel error = false -> shouldRetry error = false ->
  err_response error = Some response -> status response <> 401%Z ->
  responseRejected E instance error w
  = (Some (Rejected (ThrownNormalized
                      (enhancedError (touched error) response (normalizedConfig error)))), w).
Proof.
  intros Hc Hr Hn Hs. rewrite responseRejected_branches. cbv zeta.
  rewrite Hc, Hr, Hn. now destruct (Z.eqb_spec (status response) 401).
Qed.

(** The refresh resolves to a falsy value, or leaves no token behind: the
    401 error is thrown; [logout] is not called. *)
Lemma responseRejected_refresh_declined
    (error : AxiosError) (response : Response) (w : World)
    (refreshed : bool) (user : option User) :
  err_cancel error = false -> shouldRetry error = false ->
  err_response error = Some response -> status response = 401%Z ->
  refreshToken E (refreshes w) = RefreshReturns refreshed user ->
  refreshed && Js.truthy (user ≫= token) = false ->
  responseRejected E instance error w
  = (Some (Rejected (ThrownNormalized
                      (enhancedError (touched error) response (normalizedConfig error)))),
          refreshed_world user (emit EvRefresh w)).
Proof.
  intros Hc Hr Hn Hs Hrefresh Hfalse. rewrite responseRejected_branches. cbv zeta.
  now rewrite Hc, Hr, Hn, Hs, Hrefresh, Hfalse.
Qed.

(** The refresh rejects: [logout] is called and the 401 error is thrown. *)
Lemma responseRejected_refresh_throws
    (error : AxiosError) (response : Response) (w : World) :
  err_cancel error = false -> shouldRetry error = false ->
  err_response error = Some response -> status response = 401%Z ->
  refreshToken E (refreshes w) = RefreshThrows ->
  exists w' : World,
    responseRejected E instance error w
    = (Some (Rejected (ThrownNormalized
                        (enhancedError (touched error) response (normalizedConfig error)))), w')
    /\ In EvLogout (trace w').
Proof.
  intros Hc Hr Hn Hs Hrefresh. rewrite responseRejected_branches. cbv zeta.
  rewrite Hc, Hr, Hn, Hs, Hrefresh. eexists. split; [reflexivity|].
  unfold refreshFailed. destruct (hasWindow E); cbn [emit trace];
    rewrite ?in_app_iff; simpl; tauto.
Qed.

(** The refresh succeeds and leaves a token: the request is replayed once,
    with the new token in its [x-auth-token] header, and the outcome of the
    replay is the outcome of the handler. *)
Lemma responseRejected_refresh_replays
    (error : AxiosError) (response : Response) (w : World)
    (user : User) (tok : string) (h : gmap string string) :
  err_cancel error = false -> shouldRetry error = false ->
  err_response error = Some response -> status response = 401%Z ->
  refreshToken E (refreshes w) = RefreshReturns true (Some user) ->
  token user = Some tok -> tok <> "" ->
  headers (normalizedConfig error) = Some h ->
  responseRejected E instance error w
  = instance (with_headers (normalizedConfig error)
                (Some (<[ "x-auth-token" := tok ]> h)))
             (refreshed_world (Some user) (emit EvRefresh w)).
Proof.
  intros Hc Hr Hn Hs Hrefresh Htok Hne Hh. rewrite responseRejected_branches.
  cbv zeta. rewrite Hc, Hr, Hn, Hs, Hrefresh, Hh.
  cbn [mbind option_bind andb]. rewrite Htok, (truthy_Some tok Hne). reflexivity.
Qed.

End Handler.

(** ** What the request interceptor writes *)

Section Interceptor.

Variable E : Env.

(** A header assignment touches nothing but the headers. *)
Lemma set_header_fields (k v : string) (config : Config) :
  method (set_header k v config) = method config
  /\ url (set_header k v config) = url config
  /\ serverType (set_header k v config) = serverType config
  /\ baseURL (set_header k v config) = baseURL config
  /\ data (set_header k v config) = data config
  /\ retryCount (set_header k v config) = retryCount config.
Proof. unfold set_header. destruct (headers config); repeat split. Qed.

Lemma requestInterceptor_baseURL_of (user : option User) (config : Config) :
  baseURL (requestInterceptor E user config)
  = if Js.truthy (serverType config)
    then getBaseURLByServerType E (default "" (serverType config))
    else API_GATEWAY_URL E.
Proof.
  unfold requestInterceptor. cbv zeta.
  destruct user as [user|];
    [destruct (Js.truthy (token user)); [destruct (Js.truthy (sessionId user))|]|];
    repeat match goal with
           | |- context [baseURL (set_header ?k ?v ?c)] =>
             replace (baseURL (set_header k v c)) with (baseURL c)
               by (symmetry; apply set_header_fields)
           end;
    destruct (Js.truthy (serverType config));
    match goal with
    | |- context [if ?b then _ else _] => destruct b
    end; reflexivity.
Qed.

Lemma interceptor_data (user : option User) (config : Config) :
  data (requestInterceptor E user config)
  = if negb (bool_decide (method config = Some "get")) && negb (JsJson.truthy (data config))
    then JObj [] else data config.
Proof.
  unfold requestInterceptor. cbv zeta.
  destruct user as [user|];
    [destruct (Js.truthy (token user)); [destruct (Js.truthy (sessionId user))|]|];
    repeat match goal with
           | |- context [data (set_header ?k ?v ?c)] =>
             replace (data (set_header k v c)) with (data c)
               by (symmetry; apply set_header_fields)
           end;
    destruct (Js.truthy (serverType config));
    cbn [method data with_baseURL];
    destruct (negb (bool_decide (method config = Some "get"))
              && negb (JsJson.truthy (data config))); reflexivity.
Qed.

Lemma headers_before_user (config : Config) :
  headers
    (let config :=
       if Js.truthy (serverType config)
       then with_baseURL config (getBaseURLByServerType E (default "" (serverType config)))
       else with_baseURL config (API_GATEWAY_URL E) in
     if negb (bool_decide (method config = Some "get")) && negb (JsJson.truthy (data config))
     then with_data config (JObj [])
     else config)
  = headers config.
Proof.
  cbv zeta.
  repeat match goal with
         | |- context [if ?b then _ else _] => destruct b
         end; reflexivity.
Qed.

Lemma headers_set_header (k v : string) (config : Config) :
  headers (set_header k v config) = (fun h => <[ k := v ]> h) <$> headers config.
Proof. unfold set_header. destruct (headers config) eqn:Hh; [reflexivity | exact Hh]. Qed.

(** The headers the interceptor leaves behind. *)
Lemma headers_requestInterceptor (user : option User) (config : Config) :
  headers (requestInterceptor E user config)
  = if Js.truthy (user ≫= token) then
      (fun h =>
         let h := <[ "x-auth-token" := default "" (user ≫= token) ]> h in
         if Js.truthy (user ≫= sessionId)
         then <[ "x-session-id" := default "" (user ≫= sessionId) ]> h
         else h) <$> headers config
    else headers config.
Proof.
  unfold requestInterceptor.
  destruct user as [user|]; cbn [mbind option_bind Js.truthy];
    [|apply headers_before_user].
  destruct (Js.truthy (token user)); [|apply headers_before_user].
  cbv zeta.
  destruct (Js.truthy (sessionId user)); rewrite !headers_set_header;
    rewrite headers_before_user; now destruct (headers config).
Qed.

(** The library never hands the interceptor a configuration it rejects. *)
Lemma merged_not_rejected (user : option User) (config : Config) :
  interceptorRejects user (mergeConfig config) = false.
Proof. unfold interceptorRejects. apply andb_false_r. Qed.

(** What the transport receives always has headers. *)
Lemma prepared_headers (user : option User) (config : Config) :
  exists h, headers (prepared E user config) = Some h.
Proof.
  unfold prepared. rewrite headers_requestInterceptor.
  cbn [mergeConfig headers with_method with_headers fmap option_fmap option_map].
  destruct (Js.truthy (user ≫= token)); eauto.
Qed.

(** What the transport receives carries the token of the session. *)
Lemma prepared_token (user : User) (config : Config) (tok : string) :
  token user = Some tok -> tok <> ""%string ->
  header (prepared E (Some user) config) "x-auth-token" = Some tok.
Proof.
  intros Htok Hne. unfold header, prepared. rewrite headers_requestInterceptor.
  cbn [mergeConfig headers with_method with_headers fmap option_fmap option_map
       mbind option_bind].
  rewrite Htok, (truthy_Some tok Hne). cbn [default from_option id].
  destruct (Js.truthy (sessionId user)); cbn [mbind option_bind].
  - rewrite lookup_insert_ne by discriminate. apply lookup_insert_eq.
  - apply lookup_insert_eq.
Qed.

(** The fields the interceptor does not write. *)
Lemma interceptor_fields (user : option User) (config : Config) :
  method (requestInterceptor E user config) = method config
  /\ url (requestInterceptor E user config) = url config
  /\ serverType (requestInterceptor E user config) = serverType config
  /\ retryCount (requestInterceptor E user config) = retryCount config.
Proof.
  unfold requestInterceptor. cbv zeta.
  destruct user as [user|];
    [destruct (Js.truthy (token user)); [destruct (Js.truthy (sessionId user))|]|];
    repeat match goal with
           | |- context [set_header ?k ?v ?c] =>
             destruct (set_header_fields k v c) as (-> & -> & -> & _ & _ & ->)
           end;
    repeat match goal with
           | |- context [if ?b then _ else _] => destruct b
           end; repeat split.
Qed.

End Interceptor.

(** ** The retry loop *)

Section RetryLoop.

Local Open Scope list_scope.

Variable E : Env.

Lemma requestInterceptor_retryCount (user : option User) (config : Config) :
  retryCount (requestInterceptor E user (mergeConfig config)) = retryCount config.
Proof.
  unfold requestInterceptor, mergeConfig, set_header.
  destruct user as [user|];
    repeat match goal with
           | |- context [if ?b then _ else _] => destruct b
           end; reflexivity.
Qed.

Lemma requestInterceptor_counter (user : option User) (config : Config) :
  counter (requestInterceptor E user (mergeConfig config)) = counter config.
Proof. unfold counter. now rewrite requestInterceptor_retryCount. Qed.

Lemma sends_app (tr1 tr2 : list Event) : sends (tr1 ++ tr2) = sends tr1 ++ sends tr2.
Proof. apply omap_app. Qed.

Lemma delays_app (tr1 tr2 : list Event) : delays (tr1 ++ tr2) = delays tr1 ++ delays tr2.
Proof. apply omap_app. Qed.

Lemma delays_delay (d : Q) : delays [EvDelay d] = [d].
Proof. reflexivity. Qed.

Lemma delays_send (c : Config) : delays [EvSend c] = [].
Proof. reflexivity. Qed.

Lemma authEvents_app (tr1 tr2 : list Event) :
  authEvents (tr1 ++ tr2) = authEvents tr1 ++ authEvents tr2.
Proof. unfold authEvents. apply List.filter_app. Qed.

Lemma sentCounters_app (tr1 tr2 : list Event) :
  sentCounters (tr1 ++ tr2) = sentCounters tr1 ++ sentCounters tr2.
Proof. unfold sentCounters. now rewrite sends_app, fmap_app. Qed.

Lemma sends_refreshFailed (w : World) :
  sends (trace (refreshFailed E w)) = sends (trace w).
Proof.
  unfold refreshFailed. destruct (hasWindow E); cbn [emit trace];
    rewrite !sends_app; cbn [sends omap]; now rewrite !app_nil_r.
Qed.

Lemma sent_refreshFailed (w : World) : sent (refreshFailed E w) = sent w.
Proof. unfold refreshFailed. now destruct (hasWindow E). Qed.

Lemma counter_normalized (message : string) (code : option string)
    (response : option (Z * Json)) (request cancel : bool) (config : Config) :
  counter (normalizedConfig (makeError config message code response request cancel))
  = counter config.
Proof. reflexivity. Qed.

Lemma shouldRetry_below (error : AxiosError) :
  shouldRetry error = true ->
  (counter (normalizedConfig error) < maxRetries RETRY_CONFIG)%nat.
Proof. intros [_ H]%andb_true_iff. now apply Nat.ltb_lt in H. Qed.

Lemma shouldRetry_exhausted (error : AxiosError) :
  shouldRetry error = false -> isRetryableError (Some error) = true ->
  (maxRetries RETRY_CONFIG <= counter (normalizedConfig error))%nat.
Proof.
  unfold shouldRetry. intros H Hyes. rewrite Hyes in H. cbn [andb] in H.
  now apply Nat.ltb_ge in H.
Qed.

(** Against a backend that never answers 401 the request settles, and the
    counters of its attempts are consecutive. *)
Lemma retry_loop_settles (fuel : nat) (config : Config) (w : World) :
  no401 E ->
  (counter config <= maxRetries RETRY_CONFIG)%nat ->
  (maxRetries RETRY_CONFIG - counter config < fuel)%nat ->
  exists (res : Settled) (w' : World) (k : nat),
    axiosInstance E fuel config w = (Some res, w')
    /\ sentCounters (trace w') = sentCounters (trace w) ++ seq (counter config) (S k)
    /\ sent w' = (sent w + S k)%nat
    /\ (counter config + k <= maxRetries RETRY_CONFIG)%nat
    /\ (allRetryable E -> (exists t, res = Rejected t) ->
        (counter config + k = maxRetries RETRY_CONFIG)%nat).
Proof.
  intros Hno. revert config w.
  assert (Hmax : maxRetries RETRY_CONFIG = 3%nat) by reflexivity.
  induction fuel as [|fuel IH]; intros config w Hle Hfuel; [lia|].
  cbn [axiosInstance].
  pose proof (requestInterceptor_counter (currentUser w) config) as Hcount.
  set (config' := requestInterceptor E (currentUser w) (mergeConfig config)) in *.
  assert (Hsent : sentCounters (trace (emit (EvSend config') (tick_sent w)))
                  = sentCounters (trace w) ++ [counter config]).
  { cbn [emit trace tick_sent]. rewrite sentCounters_app. now rewrite <- Hcount. }
  destruct (transport E (sent w) config')
    as [st body | message code response request cancel] eqn:Houtcome.
  - (* the attempt succeeds *)
    do 2 eexists. exists 0%nat. split; [reflexivity|].
    cbn [responseFulfilled snd delete_pending trace sent emit tick_sent] in *.
    repeat split; [exact Hsent | lia | lia |].
    intros _ [t [=]].
  - set (error := makeError config' message code response request cancel).
    assert (Hc : counter (normalizedConfig error) = counter config)
      by (rewrite <- Hcount; reflexivity).
    destruct cancel.
    + (* cancelled *)
      rewrite responseRejected_cancel by reflexivity.
      do 2 eexists. exists 0%nat. split; [reflexivity|].
      repeat split; [exact Hsent | cbn; lia | lia |].
      intros Hall _. now destruct (Hall _ _ _ _ _ _ _ Houtcome).
    + destruct (shouldRetry error) eqn:Hretry.
      * (* the retry branch *)
        rewrite responseRejected_retry by (reflexivity || exact Hretry).
        pose proof (shouldRetry_below error Hretry) as Hbelow.
        rewrite Hc in *.
        match goal with
        | |- context [axiosInstance E fuel ?c ?w1] =>
          destruct (IH c w1) as (res & w' & k & Hrun & Htr & Hs & Hk & Hrej)
        end.
        { cbn. lia. }
        { cbn. lia. }
        exists res, w', (S k). split; [exact Hrun|].
        cbn [counter with_retryCount retryCount default from_option id] in Htr, Hk, Hrej.
        fold (counter config) in Htr, Hk, Hrej.
        repeat split.
        -- rewrite Htr. cbn [emit trace tick_randoms] in *.
           rewrite sentCounters_app, Hsent. cbn [sentCounters sends omap fmap list_fmap].
           rewrite app_nil_r, <- app_assoc. reflexivity.
        -- rewrite Hs. cbn. lia.
        -- lia.
        -- intros Hall Ht. specialize (Hrej Hall Ht). lia.
      * (* the failure is surfaced *)
        assert (Hlast : allRetryable E -> (counter config + 0 = maxRetries RETRY_CONFIG)%nat).
        { intros Hall. destruct (Hall _ _ _ _ _ _ _ Houtcome) as [_ Hyes].
          pose proof (shouldRetry_exhausted error Hretry Hyes). lia. }
        destruct response as [[st body]|].
        -- rewrite (responseRejected_http E _ error
                      {| status := st; resp_data := body; resp_config := config' |})
             by (reflexivity || exact Hretry || exact (Hno _ _ _ _ _ _ _ _ Houtcome)).
           do 2 eexists. exists 0%nat. split; [reflexivity|].
           repeat split; [exact Hsent | cbn; lia | lia | auto].
        -- rewrite responseRejected_network by (reflexivity || exact Hretry).
           do 2 eexists. exists 0%nat. split; [reflexivity|].
           repeat split; [exact Hsent | cbn; lia | lia | auto].
Qed.




End RetryLoop.




(** ** Errors surfaced to the caller *)

Section Surfaced.

Local Open Scope list_scope.

Variable E : Env.

Lemma last_sends_send (tr : list Event) (c : Config) :
  last (sends (tr ++ [EvSend c])) = Some c.
Proof. rewrite sends_app. cbn [sends omap]. apply last_snoc. Qed.

Lemma networkMessage_template (code : option string) :
  networkMessage code
  = ("서버와 통신할 수 없습니다. 네트워크 연결을 확인하고 잠시 후 다시 시도해주세요."
     ++ (if Js.truthy code then " (Error: " ++ default "" code ++ ")" else ""))%string.
Proof.
  destruct code as [c|]; [|reflexivity].
  unfold networkMessage. cbn [Js.truthy]. destruct (String.eqb c ""); reflexivity.
Qed.

(** A settled rejection is decided by the last transport attempt: when that
    attempt failed without a response and was not cancelled, the error
    thrown is the [customError] built from it. *)
Lemma rejection_from_last_attempt (fuel : nat) :
  forall (config : Config) (w : World) (t : Thrown) (w' : World),
    axiosInstance E fuel config w = (Some (Rejected t), w') ->
    exists (c : Config) (k : nat),
      last (sends (trace w')) = Some c /\ sent w' = S k
      /\ forall message code request,
           transport E k c = RawFail message code None request false ->
           let error := makeError c message code None request false in
           t = ThrownNormalized (customError (touched error) (normalizedConfig error)).
Proof.
  induction fuel as [|fuel IH]; intros config w t w' Hrun; [discriminate|].
  cbn [axiosInstance] in Hrun.
  set (config' := requestInterceptor E (currentUser w) (mergeConfig config)) in *.
  pose proof (last_sends_send (trace w) config') as Hlast.
  destruct (transport E (sent w) config')
    as [st body | message code response request cancel] eqn:Houtcome;
    [discriminate|].
  rewrite responseRejected_branches in Hrun. cbv zeta in Hrun.
  cbn [makeError err_cancel err_response] in Hrun.
  destruct cancel.
  { injection Hrun as <- <-. exists config', (sent w).
    repeat split; [exact Hlast|]. intros m c r Ht. congruence. }
  destruct (shouldRetry _); [exact (IH _ _ _ _ Hrun)|].
  destruct response as [[st body]|]; cbn [option_map] in Hrun.
  2:{ injection Hrun as <- <-. exists config', (sent w).
      repeat split; [exact Hlast|]. intros m c r Ht.
      rewrite Houtcome in Ht. injection Ht as <- <- <-. reflexivity. }
  assert (Hdirect : forall (t0 : Thrown) (w0 : World),
             sends (trace w0) = sends (trace w ++ [EvSend config']) ->
             sent w0 = S (sent w) ->
             (Some (Rejected t0), w0) = (Some (Rejected t), w') ->
             exists (c : Config) (k : nat),
               last (sends (trace w')) = Some c /\ sent w' = S k
               /\ forall message code request,
                    transport E k c = RawFail message code None request false ->
                    let error := makeError c message code None request false in
                    t = ThrownNormalized (customError (touched error) (normalizedConfig error))).
  { intros t0 w0 Hs Hn [= <- <-]. exists config', (sent w).
    rewrite Hs. repeat split; [exact Hlast | exact Hn |].
    intros m c r Ht. congruence. }
  cbn [status fst] in Hrun.
  destruct (Z.eqb st 401); [|refine (Hdirect _ _ _ _ Hrun); reflexivity].
  destruct (refreshToken E _) as [refreshed user|].
  - destruct (refreshed && _).
    + destruct (headers _); [exact (IH _ _ _ _ Hrun)|].
      refine (Hdirect _ _ _ _ Hrun).
      * rewrite sends_refreshFailed. cbn [refreshed_world emit trace tick_sent].
        rewrite !sends_app. cbn [sends omap]. now rewrite !app_nil_r.
      * now rewrite sent_refreshFailed.
    + refine (Hdirect _ _ _ _ Hrun); [|reflexivity].
      cbn [refreshed_world emit trace tick_sent].
      rewrite !sends_app. cbn [sends omap]. now rewrite !app_nil_r.
  - refine (Hdirect _ _ _ _ Hrun).
    + rewrite sends_refreshFailed. cbn [refreshed_world emit trace tick_sent].
      rewrite !sends_app. cbn [sends omap]. now rewrite !app_nil_r.
    + now rewrite sent_refreshFailed.
Qed.

End Surfaced.

(** C8, as amended: a failure without response that is not a cancellation
    and is not (or no longer) retried is thrown as an error with
    [isNetworkError], status 0, the fixed message extended with the
    transport code when there is one, and a [retry] capability that
    re-issues the request's configuration through the axios instance; and
    whenever a request settles in a rejection whose last attempt failed in
    this way, that error is the one the caller receives.  (A cancelled
    request, also without response, is rejected with the original error
    object, which is not normalised.) *)
Theorem network_failure_normalized (E : Env) :
  (forall (instance : Config -> World -> option Settled * World)
          (error : AxiosError) (w : World),
      err_response error = None -> err_cancel error = false ->
      shouldRetry error = false ->
      exists ne : NormalizedError,
        responseRejected E instance error w = (Some (Rejected (ThrownNormalized ne)), w)
        /\ ne_isNetworkError ne = true
        /\ ne_status ne = 0%Z
        /\ ne_message ne
           = "서버와 통신할 수 없습니다. 네트워크 연결을 확인하고 잠시 후 다시 시도해주세요."
             ++ (if Js.truthy (err_code error)
                 then " (Error: " ++ default "" (err_code error) ++ ")" else "")
        /\ ne_originalError ne = touched error
        /\ ne_retry ne = normalizedConfig error
        /\ forall (fuel : nat) (w' : World),
             retry E fuel ne w' = axiosInstance E fuel (normalizedConfig error) w')
  /\ (forall (fuel : nat) (config : Config) (w : World) (t : Thrown) (w' : World),
         axiosInstance E fuel config w = (Some (Rejected t), w') ->
         exists (c : Config) (k : nat),
           last (sends (trace w')) = Some c /\ sent w' = S k
           /\ forall message code request,
                transport E k c = RawFail message code None request false ->
                exists ne : NormalizedError,
                  t = ThrownNormalized ne
                  /\ ne_isNetworkError ne = true
                  /\ ne_status ne = 0%Z
                  /\ ne_message ne = networkMessage code
                  /\ ne_retry ne = with_retryCount c (Some (counter c))).
Proof.
  split.
  - intros instance error w Hnone Hcancel Hretry.
    exists (customError (touched error) (normalizedConfig error)).
    rewrite (responseRejected_network E instance error w Hcancel Hretry Hnone).
    cbn [customError ne_isNetworkError ne_status ne_message ne_originalError ne_retry].
    rewrite networkMessage_template. repeat split.
  - intros fuel config w t w' Hrun.
    destruct (rejection_from_last_attempt E fuel config w t w' Hrun)
      as (c & k & Hlast & Hsent & Hcustom).
    exists c, k. split; [exact Hlast|]. split; [exact Hsent|].
    intros message code request Hfail.
    eexists. split; [exact (Hcustom message code request Hfail)|].
    repeat split.
Qed.

Lemma network_failure_normalized_witness :
  exists ne : NormalizedError,
    responseRejected Sample.unavailable (axiosInstance Sample.unavailable 4)
      Sample.unreachable (initialWorld None)
    = (Some (Rejected (ThrownNormalized ne)), initialWorld None)
    /\ ne_status ne = 0%Z
    /\ ne_message ne
       = "서버와 통신할 수 없습니다. 네트워크 연결을 확인하고 잠시 후 다시 시도해주세요. (Error: ERR_NETWORK)".
Proof.
  destruct (network_failure_normalized Sample.unavailable) as [H _].
  destruct (H (axiosInstance Sample.unavailable 4) Sample.unreachable (initialWorld None)
              eq_refl eq_refl eq_refl)
    as (ne & Hrun & _ & Hstatus & Hmessage & _).
  exists ne. split; [exact Hrun|]. split; [exact Hstatus|]. exact Hmessage.
Defined.

(** C8, as stated, fails for a cancelled request: no response was received,
    yet the caller gets the original error back, not a normalised error
    with status 0. *)
Lemma cancelled_failure_not_normalized :
  err_response Sample.cancelled = None
  /\ responseRejected Sample.unavailable (axiosInstance Sample.unavailable 4)
       Sample.cancelled (initialWorld None)
     = (Some (Rejected (ThrownAxios (touched Sample.cancelled))), initialWorld None)
  /\ ~ exists (ne : NormalizedError) (w' : World),
         responseRejected Sample.unavailable (axiosInstance Sample.unavailable 4)
           Sample.cancelled (initialWorld None)
         = (Some (Rejected (ThrownNormalized ne)), w').
Proof.
  split; [reflexivity|].
  rewrite responseRejected_cancel by reflexivity.
  split; [reflexivity|]. intros (ne & w' & [=]).
Qed.

(** C2, at the failing input: the backend answers 401 and
    [authService.refreshToken()] resolves to [false].  The handler makes one
    transport attempt and one refresh attempt and throws the 401 error, but
    [authService.logout()] is never called. *)
Theorem refresh_declined_skips_logout :
  exists (ne : NormalizedError) (w' : World),
    axiosInstance Sample.expired 1 Sample.request (initialWorld (Some Sample.session))
    = (Some (Rejected (ThrownNormalized ne)), w')
    /\ ne_status ne = 401%Z
    /\ sent w' = 1%nat
    /\ In EvRefresh (trace w')
    /\ ~ In EvLogout (trace w').
Proof.
  cbn [axiosInstance].
  set (config := requestInterceptor Sample.expired _ _).
  cbn [transport Sample.expired Sample.anyEnv].
  erewrite responseRejected_refresh_declined;
    [ | reflexivity | reflexivity | reflexivity | reflexivity | reflexivity | reflexivity ].
  do 2 eexists. split; [reflexivity|].
  cbn [refreshed_world emit trace tick_sent initialWorld sent app].
  repeat split.
  - right. left. reflexivity.
  - intros [[=]|[[=]|[]]].
Qed.

(** * Further properties of the code *)

(** ** More on the backoff delay *)

Section DelayMore.

Local Open Scope Q_scope.

Lemma uncappedDelay_succ (n : nat) : uncappedDelay n <= uncappedDelay (S n).
Proof.
  unfold uncappedDelay. rewrite !(Qmult_comm (initialDelayMs RETRY_CONFIG)).
  apply Qmult_le_compat_r; [|discriminate].
  apply Qpower_le_compat_l; [lia | discriminate].
Qed.

Lemma uncappedDelay_mono (n m : nat) : (n <= m)%nat -> uncappedDelay n <= uncappedDelay m.
Proof.
  induction 1 as [|m _ IH]; [apply Qle_refl|].
  eapply Qle_trans; [exact IH | apply uncappedDelay_succ].
Qed.

Lemma jitter_nonneg (u : Q) : 0 <= u -> 0 <= 1 + u * (1 # 10).
Proof.
  intros Hu. apply Qle_trans with (1 + 0); [discriminate|].
  apply Qplus_le_r. apply Qmult_le_0_compat; [exact Hu | discriminate].
Qed.

(** X1: for a fixed value of [Math.random()], the delay never decreases from
    one retry to a later one. *)
Theorem getRetryDelay_monotone (n m : nat) (u : Q) :
  (n <= m)%nat -> 0 <= u -> getRetryDelay n u <= getRetryDelay m u.
Proof.
  intros Hnm Hu. unfold getRetryDelay. cbv zeta.
  fold (uncappedDelay n) (uncappedDelay m).
  apply Q.min_le_compat_r. apply Qmult_le_compat_r.
  - now apply uncappedDelay_mono.
  - now apply jitter_nonneg.
Qed.

Lemma getRetryDelay_monotone_witness : getRetryDelay 1 (1 # 3) <= getRetryDelay 2 (1 # 3).
Proof. apply (getRetryDelay_monotone 1 2 (1 # 3)); [lia | discriminate]. Defined.

(** X2: from the third retry on the cap is reached: the delay is exactly
    [maxDelayMs], whatever the jitter. *)
Theorem getRetryDelay_capped (n : nat) (u : Q) :
  (3 <= n)%nat -> 0 <= u -> getRetryDelay n u == maxDelayMs RETRY_CONFIG.
Proof.
  intros Hn Hu. unfold getRetryDelay. cbv zeta. fold (uncappedDelay n).
  apply Q.min_r.
  apply Qle_trans with (uncappedDelay 3); [discriminate|].
  apply Qle_trans with (uncappedDelay n); [now apply uncappedDelay_mono|].
  apply jitter_expands; [apply uncappedDelay_nonneg | exact Hu].
Qed.

Lemma getRetryDelay_capped_witness : getRetryDelay 5 (9 # 10) == maxDelayMs RETRY_CONFIG.
Proof. apply (getRetryDelay_capped 5 (9 # 10)); [lia | discriminate]. Defined.

(** X3: the jitter adds at most ten percent: the delay never exceeds
    [1.1 * initialDelay * backoffFactor^n]. *)
Theorem getRetryDelay_jitter_bound (n : nat) (u : Q) :
  0 <= u -> u <= 1 -> getRetryDelay n u <= uncappedDelay n * (11 # 10).
Proof.
  intros Hu Hu1. unfold getRetryDelay. cbv zeta. fold (uncappedDelay n).
  eapply Qle_trans; [apply Q.le_min_l|].
  rewrite !(Qmult_comm (uncappedDelay n)).
  apply Qmult_le_compat_r; [|apply uncappedDelay_nonneg].
  apply Qle_trans with (1 + 1 * (1 # 10)); [|discriminate].
  apply Qplus_le_r. apply Qmult_le_compat_r; [exact Hu1 | discriminate].
Qed.

Lemma getRetryDelay_jitter_bound_witness :
  getRetryDelay 1 (1 # 2) <= uncappedDelay 1 * (11 # 10).
Proof. apply (getRetryDelay_jitter_bound 1 (1 # 2)); discriminate. Defined.

End DelayMore.

(** ** The request interceptor *)

Section RequestInterceptor.

Variable E : Env.

(** X4: the request goes to the chat server exactly when its [serverType] is
    ["chatServer"]; with any other tag, or none, it goes to the API
    gateway. *)
Theorem requestInterceptor_baseURL (user : option User) (config : Config) :
  baseURL (requestInterceptor E user config)
  = if bool_decide (serverType config = Some "chatServer")
    then CHAT_SERVER_URL E else API_GATEWAY_URL E.
Proof.
  rewrite requestInterceptor_baseURL_of. unfold getBaseURLByServerType.
  destruct (serverType config) as [s|]; cbn [Js.truthy default from_option id].
  - destruct (String.eqb_spec s "") as [->|_]; [reflexivity|]. cbn [negb].
    destruct (String.eqb_spec s "apiGateway") as [->|_]; [reflexivity|].
    destruct (String.eqb_spec s "chatServer") as [->|Hne]; [reflexivity|].
    rewrite bool_decide_eq_false_2; [reflexivity | congruence].
  - reflexivity.
Qed.

(** X5: when the configuration has a headers object (as every
    configuration handed over by the library has) and the session has a
    token, the interceptor returns the configuration with the token in
    [x-auth-token], and when the session also has a sessionId, with that in
    [x-session-id]. *)
Theorem requestInterceptor_attaches_session
    (user : User) (config : Config) (h : gmap string string) (tok : string) :
  headers config = Some h ->
  token user = Some tok -> tok <> "" ->
  interceptorRejects (Some user) config = false
  /\ header (requestInterceptor E (Some user) config) "x-auth-token" = Some tok
  /\ forall sid : string,
       sessionId user = Some sid -> sid <> "" ->
       header (requestInterceptor E (Some user) config) "x-session-id" = Some sid.
Proof.
  intros Hh Htok Hne. split.
  { unfold interceptorRejects. rewrite Hh. apply andb_false_r. }
  unfold header. rewrite headers_requestInterceptor, Hh.
  cbn [mbind option_bind fmap option_fmap option_map].
  rewrite Htok, (truthy_Some tok Hne).
  cbn [default from_option id]. split.
  - destruct (Js.truthy (sessionId user)); cbn [mbind option_bind].
    + rewrite lookup_insert_ne by discriminate. apply lookup_insert_eq.
    + apply lookup_insert_eq.
  - intros sid Hsid Hsidne. rewrite Hsid, (truthy_Some sid Hsidne).
    cbn [default from_option id mbind option_bind]. apply lookup_insert_eq.
Qed.

(** X6: without a session token (no session, or a session whose token is
    missing or empty) the interceptor leaves the headers as they are, also
    when the session has a sessionId. *)
Theorem requestInterceptor_without_token (user : option User) (config : Config) :
  Js.truthy (user ≫= token) = false ->
  headers (requestInterceptor E user config) = headers config.
Proof.
  intros Hfalse. unfold requestInterceptor.
  destruct user as [user|]; cbn [mbind option_bind] in Hfalse.
  - rewrite Hfalse. apply headers_before_user.
  - apply headers_before_user.
Qed.

(** X7: whenever the interceptor returns the configuration (it has a
    headers object, or there is no token to attach), it has not removed or
    changed any header other than [x-auth-token] and [x-session-id], and
    the method, the address, the server tag and the attempt counter of the
    request are the ones it was given. *)
Theorem requestInterceptor_preserves (user : option User) (config : Config) :
  interceptorRejects user config = false ->
  method (requestInterceptor E user config) = method config
  /\ url (requestInterceptor E user config) = url config
  /\ serverType (requestInterceptor E user config) = serverType config
  /\ retryCount (requestInterceptor E user config) = retryCount config
  /\ forall k : string,
       k <> "x-auth-token" -> k <> "x-session-id" ->
       header (requestInterceptor E user config) k = header config k.
Proof.
  intros Hreturns.
  destruct (interceptor_fields E user config) as (Hm & Hu & Hs & Hr).
  repeat split; try assumption.
  intros k Hauth Hsess. unfold header. rewrite headers_requestInterceptor.
  unfold interceptorRejects in Hreturns.
  destruct (Js.truthy (user ≫= token)); [|reflexivity].
  destruct (headers config) as [h|]; [|discriminate].
  cbn [mbind option_bind fmap option_fmap option_map].
  destruct (Js.truthy (user ≫= sessionId)); cbn [mbind option_bind];
    now rewrite ?lookup_insert_ne by congruence.
Qed.

End RequestInterceptor.

Lemma requestInterceptor_attaches_session_witness :
  interceptorRejects (Some Sample.session) (mergeConfig Sample.request) = false
  /\ header (requestInterceptor Sample.unavailable (Some Sample.session)
               (mergeConfig Sample.request)) "x-auth-token" = Some "tok/1"
  /\ header (requestInterceptor Sample.unavailable (Some Sample.session)
               (mergeConfig Sample.request)) "x-session-id" = Some "sid 7".
Proof.
  destruct (requestInterceptor_attaches_session Sample.unavailable Sample.session
              (mergeConfig Sample.request) defaultHeaders "tok/1"
              eq_refl eq_refl ltac:(discriminate)) as (Hreturns & Hauth & Hsess).
  split; [exact Hreturns|]. split; [exact Hauth|].
  apply (Hsess "sid 7" eq_refl). discriminate.
Defined.

Lemma requestInterceptor_without_token_witness :
  headers (requestInterceptor Sample.unavailable
             (Some {| token := None; sessionId := Some "sid 7" |}) Sample.request)
  = headers Sample.request.
Proof.
  apply (requestInterceptor_without_token Sample.unavailable
           (Some {| token := None; sessionId := Some "sid 7" |}) Sample.request).
  reflexivity.
Defined.

Section Resend.

Variable E : Env.

Lemma toLowerCase_idempotent (s : string) :
  Js.toLowerCase (Js.toLowerCase s) = Js.toLowerCase s.
Proof.
  induction s as [|c s IH]; [reflexivity|].
  cbn [Js.toLowerCase]. rewrite IH. f_equal.
  destruct c as [[] [] [] [] [] [] [] []]; reflexivity.
Qed.

Lemma config_eq (c1 c2 : Config) :
  method c1 = method c2 -> url c1 = url c2 -> serverType c1 = serverType c2 ->
  baseURL c1 = baseURL c2 -> headers c1 = headers c2 -> data c1 = data c2 ->
  retryCount c1 = retryCount c2 -> c1 = c2.
Proof. destruct c1, c2. cbn. now intros -> -> -> -> -> -> ->. Qed.

Lemma insert_twice (k1 k2 v1 v2 : string) (h : gmap string string) :
  <[k2:=v2]> (<[k1:=v1]> (<[k2:=v2]> (<[k1:=v1]> h))) = <[k2:=v2]> (<[k1:=v1]> h).
Proof.
  apply map_eq. intros k. rewrite !lookup_insert.
  repeat case_decide; reflexivity.
Qed.

(** X8: preparing a request again for the same session changes nothing: a
    retry sends the same method, address, body and headers as the attempt
    before it. *)
Theorem prepared_idempotent (user : option User) (config : Config) :
  prepared E user (prepared E user config) = prepared E user config.
Proof.
  unfold prepared.
  set (c1 := requestInterceptor E user (mergeConfig config)).
  destruct (interceptor_fields E user (mergeConfig config))
    as (Hm1 & Hu1 & Hs1 & Hr1). fold c1 in Hm1, Hu1, Hs1, Hr1.
  destruct (interceptor_fields E user (mergeConfig c1))
    as (Hm2 & Hu2 & Hs2 & Hr2).
  assert (Hmethod : method (mergeConfig c1) = method (mergeConfig config)).
  { unfold mergeConfig at 1. cbn [method with_method]. rewrite Hm1.
    cbn [mergeConfig method with_method default from_option id].
    now rewrite toLowerCase_idempotent. }
  apply config_eq.
  - now rewrite Hm2, Hmethod, <- Hm1.
  - now rewrite Hu2.
  - now rewrite Hs2.
  - rewrite requestInterceptor_baseURL_of.
    change (serverType (mergeConfig c1)) with (serverType c1). rewrite Hs1.
    subst c1. now rewrite requestInterceptor_baseURL_of.
  - subst c1. rewrite headers_requestInterceptor. cbv zeta.
    cbn [mergeConfig headers with_method with_headers].
    rewrite !headers_requestInterceptor. cbv zeta.
    cbn [mergeConfig headers with_method with_headers].
    destruct (Js.truthy (user ≫= token)); [|reflexivity].
    cbn [fmap option_fmap option_map default from_option id].
    destruct (Js.truthy (user ≫= sessionId)); f_equal.
    + apply insert_twice.
    + apply insert_insert_eq.
  - rewrite interceptor_data, Hmethod.
    change (data (mergeConfig c1)) with (data c1).
    subst c1. rewrite interceptor_data.
    destruct (negb (bool_decide (method (mergeConfig config) = Some "get")));
      destruct (JsJson.truthy (data (mergeConfig config))) eqn:Hd;
      cbn [andb negb JsJson.truthy]; rewrite ?Hd; reflexivity.
  - now rewrite Hr2.
Qed.

End Resend.

(** ** Runs of the axios instance *)

Section Runs.

Local Open Scope list_scope.

Variable E : Env.

Lemma axiosInstance_step (fuel : nat) (config : Config) (w : World) :
  axiosInstance E (S fuel) config w
  = let c := prepared E (currentUser w) config in
    let w1 := emit (EvSend c) (tick_sent w) in
    match transport E (sent w) c with
    | RawOk st body =>
      responseFulfilled {| status := st; resp_data := body; resp_config := c |} w1
    | RawFail message code response request cancel =>
      responseRejected E (axiosInstance E fuel)
        (makeError c message code response request cancel) w1
    end.
Proof. reflexivity. Qed.

(** X9: the registry of pending requests never grows: entries are only
    ever deleted, so a registry that starts empty stays empty through any
    run. *)
Theorem pendingRequests_never_grow (fuel : nat) (config : Config) (w : World) :
  pendingRequests (axiosInstance E fuel config w).2 ⊆ pendingRequests w
  /\ (pendingRequests w = ∅ -> pendingRequests (axiosInstance E fuel config w).2 = ∅).
Proof.
  assert (Hsub : forall fuel config w,
             pendingRequests (axiosInstance E fuel config w).2 ⊆ pendingRequests w).
  { clear fuel config w.
    induction fuel as [|fuel IH]; intros config w; [reflexivity|].
    rewrite axiosInstance_step. cbv zeta.
    set (c := prepared E (currentUser w) config).
    set (w1 := emit (EvSend c) (tick_sent w)).
    change (pendingRequests w) with (pendingRequests w1).
    destruct (transport E (sent w) c) as [st body | message code response request cancel].
    { cbn [responseFulfilled snd delete_pending pendingRequests].
      apply subseteq_difference_l. reflexivity. }
    rewrite responseRejected_branches. cbv zeta.
    destruct (err_cancel _); [reflexivity|].
    destruct (shouldRetry _); [etrans; [apply IH | reflexivity]|].
    destruct (err_response _) as [response'|]; [|reflexivity].
    cbv zeta. destruct (Z.eqb _ _); [|reflexivity].
    destruct (refreshToken E _) as [refreshed user|].
    - destruct (refreshed && _); [|reflexivity].
      destruct (headers _); [etrans; [apply IH | reflexivity]|].
      unfold refreshFailed. destruct (hasWindow E); reflexivity.
    - unfold refreshFailed. destruct (hasWindow E); reflexivity. }
  split; [apply Hsub|].
  intros Hempty. specialize (Hsub fuel config w). rewrite Hempty in Hsub. set_solver.
Qed.

(** X10: when the first [k] attempts fail retryably and the next one
    succeeds, the request is fulfilled after exactly [k + 1] attempts and
    [k] backoff waits, without any call to the auth service, provided the
    counter has room for [k] retries. *)
Theorem retry_then_success (k : nat) :
  forall (fuel : nat) (config : Config) (w : World),
    (counter config + k <= maxRetries RETRY_CONFIG)%nat ->
    (k < fuel)%nat ->
    (forall i, (i < k)%nat -> failsRetryably E (sent w + i)) ->
    succeeds E (sent w + k) ->
    exists (r : Response) (w' : World),
      axiosInstance E fuel config w = (Some (Fulfilled r), w')
      /\ sent w' = (sent w + S k)%nat
      /\ length (delays (trace w')) = (length (delays (trace w)) + k)%nat
      /\ authEvents (trace w') = authEvents (trace w)
      /\ counter (resp_config r) = (counter config + k)%nat.
Proof.
  induction k as [|k IH]; intros fuel config w Hroom Hfuel Hfail Hok;
    (destruct fuel as [|fuel]; [lia|]);
    rewrite axiosInstance_step; cbv zeta;
    pose proof (requestInterceptor_counter E (currentUser w) config) as Hcount;
    fold (prepared E (currentUser w) config) in Hcount;
    set (c := prepared E (currentUser w) config) in *.
  - destruct (Hok c) as (st & body & Hrun). rewrite Nat.add_0_r in Hrun.
    rewrite Hrun. do 2 eexists. split; [reflexivity|].
    cbn [delete_pending emit tick_sent trace sent resp_config].
    rewrite delays_app, authEvents_app.
    change (delays [EvSend c]) with (@nil Q).
    change (authEvents [EvSend c]) with (@nil Event).
    rewrite !app_nil_r. repeat split; lia.
  - destruct (Hfail 0%nat ltac:(lia) c) as (message & code & response & request & Hrun & Hyes).
    rewrite Nat.add_0_r in Hrun. rewrite Hrun.
    set (error := makeError c message code response request false) in *.
    assert (Hc : counter (normalizedConfig error) = counter config)
      by (rewrite <- Hcount; reflexivity).
    assert (Hretry : shouldRetry error = true).
    { unfold shouldRetry. rewrite Hyes, Hc. apply Nat.ltb_lt.
      assert (maxRetries RETRY_CONFIG = 3%nat) by reflexivity. lia. }
    rewrite responseRejected_retry by (reflexivity || exact Hretry).
    match goal with
    | |- context [axiosInstance E fuel ?c2 ?w2] =>
      destruct (IH fuel c2 w2) as (r & w' & Hres & Hsent & Hdel & Hauth & Hcnt)
    end.
    + change (S (counter (normalizedConfig error)) + k <= maxRetries RETRY_CONFIG)%nat.
      lia.
    + lia.
    + intros i Hi. cbn [emit tick_randoms tick_sent sent].
      replace (S (sent w) + i)%nat with (sent w + S i)%nat by lia.
      apply Hfail. lia.
    + cbn [emit tick_randoms tick_sent sent].
      replace (S (sent w) + k)%nat with (sent w + S k)%nat by lia. exact Hok.
    + exists r, w'. split; [exact Hres|].
      cbn [emit tick_randoms tick_sent sent trace] in Hsent, Hdel, Hauth.
      rewrite !delays_app in Hdel. rewrite !authEvents_app in Hauth.
      cbn [delays omap authEvents List.filter app] in Hdel, Hauth.
      rewrite !length_app, delays_delay, delays_send in Hdel. cbn [length] in Hdel.
      rewrite ?app_nil_r in Hauth.
      change (counter (with_retryCount (normalizedConfig error)
                         (Some (S (counter (normalizedConfig error))))))
        with (S (counter (normalizedConfig error))) in Hcnt.
      repeat split; [lia | lia | exact Hauth | lia].
Qed.

End Runs.

Lemma retry_then_success_witness :
  exists (r : Response) (w' : World),
    axiosInstance Scenario.flaky 5 Sample.request (initialWorld None)
    = (Some (Fulfilled r), w')
    /\ sent w' = 3%nat
    /\ length (delays (trace w')) = 2%nat
    /\ authEvents (trace w') = []
    /\ counter (resp_config r) = 2%nat.
Proof.
  apply (retry_then_success Scenario.flaky 2 5 Sample.request (initialWorld None)).
  - cbn. lia.
  - lia.
  - intros i Hi c. exists "Request failed with status code 503",
      (Some "ERR_BAD_RESPONSE"), (Some (503%Z, JNull)), true.
    destruct i as [|[|i]]; [split; reflexivity | split; reflexivity | lia].
  - intros c. exists 200%Z, (JStr "ok"). reflexivity.
Defined.

Section Outcomes.

Local Open Scope list_scope.

Variable E : Env.

Lemma backoffWithin_same (tr1 tr2 : list Event) :
  delays tr2 = delays tr1 -> backoffWithin tr1 -> backoffWithin tr2.
Proof. unfold backoffWithin. now intros ->. Qed.

Lemma retry_delay_within (n : nat) (u : Q) :
  (0 <= u)%Q ->
  (uncappedDelay 1 <= getRetryDelay (S n) u)%Q
  /\ (getRetryDelay (S n) u <= maxDelayMs RETRY_CONFIG)%Q.
Proof.
  intros Hu. unfold getRetryDelay. cbv zeta. fold (uncappedDelay (S n)). split.
  - apply Q.min_glb; [|discriminate].
    apply Qle_trans with (uncappedDelay (S n)).
    + apply uncappedDelay_mono. lia.
    + apply jitter_expands; [apply uncappedDelay_nonneg | exact Hu].
  - apply Q.le_min_r.
Qed.

(** X11: every backoff wait of a run lasts at least
    [initialDelay * backoffFactor] (the first retry already waits the doubled
    delay) and at most [maxDelay], for any backend, as long as
    [Math.random()] stays within [0, 1]. *)
Theorem backoff_waits_within (fuel : nat) (config : Config) (w : World) :
  unitRandom E ->
  backoffWithin (trace w) ->
  backoffWithin (trace (axiosInstance E fuel config w).2).
Proof.
  intros Hrandom. revert config w.
  induction fuel as [|fuel IH]; intros config w Hw; [exact Hw|].
  rewrite axiosInstance_step. cbv zeta.
  set (c := prepared E (currentUser w) config).
  assert (Hw1 : backoffWithin (trace (emit (EvSend c) (tick_sent w)))).
  { refine (backoffWithin_same _ _ _ Hw). cbn [emit trace tick_sent].
    now rewrite delays_app, delays_send, app_nil_r. }
  destruct (transport E (sent w) c)
    as [st body | message code response request cancel]; [exact Hw1|].
  rewrite responseRejected_branches. cbv zeta.
  destruct (err_cancel _); [exact Hw1|].
  destruct (shouldRetry _).
  { apply IH. unfold backoffWithin. cbn [emit trace tick_randoms tick_sent].
    rewrite delays_app, delays_delay. apply Forall_app. split; [exact Hw1|].
    constructor; [|constructor].
    apply retry_delay_within. apply Hrandom. }
  destruct (err_response _) as [response'|]; [|exact Hw1].
  cbv zeta. destruct (Z.eqb _ _); [|exact Hw1].
  assert (Hsame : forall user,
             delays (trace (refreshed_world user
                              (emit EvRefresh (emit (EvSend c) (tick_sent w)))))
             = delays (trace (emit (EvSend c) (tick_sent w)))).
  { intros user. cbn [refreshed_world emit trace tick_sent].
    rewrite !delays_app. cbn [delays omap]. now rewrite !app_nil_r. }
  assert (Hfailed : forall w0, delays (trace (refreshFailed E w0)) = delays (trace w0)).
  { intros w0. unfold refreshFailed. destruct (hasWindow E); cbn [emit trace];
      rewrite !delays_app; cbn [delays omap]; now rewrite !app_nil_r. }
  destruct (refreshToken E _) as [refreshed user|].
  - destruct (refreshed && _).
    + destruct (headers _).
      * apply IH. exact (backoffWithin_same _ _ (Hsame user) Hw1).
      * refine (backoffWithin_same _ _ _ Hw1). cbn [snd].
        now rewrite Hfailed, Hsame.
    + exact (backoffWithin_same _ _ (Hsame user) Hw1).
  - refine (backoffWithin_same _ _ _ Hw1). cbn [snd].
    now rewrite Hfailed, Hsame.
Qed.

(** X12: a response that is not a retryable failure and whose status is not
    401 is surfaced after exactly one attempt: the error carries the status
    and the body of the response, the code of the body as it is, and the
    message of the status table, in which a truthy message of the body, of
    whatever type, is converted to a string (for a body whose message
    the conversion of this development renders as JavaScript does); there
    is no wait and no call to the auth service. *)
Theorem http_error_surfaced_at_once
    (fuel : nat) (config : Config) (w : World)
    (message : string) (code : option string) (st : Z) (body : Json) (request : bool) :
  let c := prepared E (currentUser w) config in
  let error := makeError c message code (Some (st, body)) request false in
  transport E (sent w) c = RawFail message code (Some (st, body)) request false ->
  ~ retryableCode error -> ~ In st (retryableStatuses RETRY_CONFIG) -> st <> 401%Z ->
  Encoding.rendersExactly (JsJson.optProp body "message") ->
  exists ne : NormalizedError,
    axiosInstance E (S fuel) config w
    = (Some (Rejected (ThrownNormalized ne)), emit (EvSend c) (tick_sent w))
    /\ ne_status ne = st
    /\ ne_message ne = statusMessage st body
    /\ ne_code ne = JsJson.optProp body "code"
    /\ ne_data ne = body
    /\ ne_isNetworkError ne = false
    /\ ne_retry ne = with_retryCount c (Some (counter c)).
Proof.
  intros c error Hrun Hcode Hstatus H401 _.
  assert (Hno : isRetryableError (Some error) = false).
  { apply not_true_is_false. intros [H|[(r & Hr & H)|[H _]]]%isRetryableError_iff.
    - contradiction.
    - injection Hr as <-. contradiction.
    - discriminate. }
  rewrite axiosInstance_step. cbv zeta. fold c. rewrite Hrun. fold error.
  rewrite (responseRejected_http E _ error
             {| status := st; resp_data := body; resp_config := c |}).
  - eexists. split; [reflexivity|]. repeat split.
  - reflexivity.
  - unfold shouldRetry. now rewrite Hno.
  - reflexivity.
  - exact H401.
Qed.

(** X13: a cancelled attempt ends the request at once, whatever its code or
    status: one attempt, no wait, no refresh, and the caller receives the
    cancellation itself. *)
Theorem cancelled_request_not_retried
    (fuel : nat) (config : Config) (w : World)
    (message : string) (code : option string) (response : option (Z * Json))
    (request : bool) :
  let c := prepared E (currentUser w) config in
  transport E (sent w) c = RawFail message code response request true ->
  axiosInstance E (S fuel) config w
  = (Some (Rejected (ThrownAxios
                       (touched (makeError c message code response request true)))),
     emit (EvSend c) (tick_sent w)).
Proof.
  intros c Hrun. rewrite axiosInstance_step. cbv zeta. fold c. rewrite Hrun.
  now rewrite responseRejected_cancel.
Qed.

(** X14: after a 401 answer that is not retried, a refresh that succeeds and
    leaves a token makes the handler hand the request back to the instance
    with the new token in its [x-auth-token] header, after one refresh call
    and without wait or [logout]: whatever the backend does next, the
    outcome of the request is the outcome of that replay, and the attempt
    the replay makes carries the new token.  The handler does not look at
    how the replay ends, so a replay that fails is handled like any other
    failure (a further refresh, or retries, may follow); when the attempt
    of the replay succeeds, the caller gets its response after exactly two
    attempts. *)
Theorem refresh_then_replay
    (fuel : nat) (config : Config) (w : World)
    (message : string) (code : option string) (body : Json) (request : bool)
    (user : User) (tok : string) :
  let c := prepared E (currentUser w) config in
  let error := makeError c message code (Some (401%Z, body)) request false in
  transport E (sent w) c = RawFail message code (Some (401%Z, body)) request false ->
  shouldRetry error = false ->
  refreshToken E (refreshes w) = RefreshReturns true (Some user) ->
  token user = Some tok -> tok <> ""%string ->
  exists h : gmap string string,
    let replayed :=
      with_headers (normalizedConfig error) (Some (<[ "x-auth-token" := tok ]> h)) in
    let w1 :=
      refreshed_world (Some user) (emit EvRefresh (emit (EvSend c) (tick_sent w))) in
    headers c = Some h
    /\ axiosInstance E (S fuel) config w = axiosInstance E fuel replayed w1
    /\ header (prepared E (currentUser w1) replayed) "x-auth-token" = Some tok
    /\ (succeeds E (S (sent w)) ->
        exists (r : Response) (w' : World),
          axiosInstance E (S (S fuel)) config w = (Some (Fulfilled r), w')
          /\ resp_config r = prepared E (currentUser w1) replayed
          /\ sent w' = (sent w + 2)%nat
          /\ refreshes w' = S (refreshes w)
          /\ authEvents (trace w') = authEvents (trace w) ++ [EvRefresh]
          /\ delays (trace w') = delays (trace w)).
Proof.
  intros c error Hrun Hretry Hrefresh Htok Hne.
  destruct (prepared_headers E (currentUser w) config) as [h Hh]. fold c in Hh.
  exists h. cbv zeta.
  assert (Hstep : forall fuel',
             axiosInstance E (S fuel') config w
             = axiosInstance E fuel'
                 (with_headers (normalizedConfig error)
                    (Some (<[ "x-auth-token" := tok ]> h)))
                 (refreshed_world (Some user)
                    (emit EvRefresh (emit (EvSend c) (tick_sent w))))).
  { intros fuel'. rewrite axiosInstance_step. cbv zeta. fold c. rewrite Hrun.
    fold error.
    now rewrite (responseRejected_refresh_replays E _ error
                   {| status := 401; resp_data := body; resp_config := c |}
                   _ user tok h). }
  split; [exact Hh|]. split; [apply Hstep|].
  split; [now apply prepared_token|].
  intros Hok. rewrite Hstep, axiosInstance_step. cbv zeta.
  cbn [refreshed_world emit tick_sent currentUser sent].
  match goal with
  | |- context [transport E (S (sent w)) ?c2] =>
    destruct (Hok c2) as (st & body' & Hrun2); rewrite Hrun2
  end.
  do 2 eexists. split; [reflexivity|].
  cbn [resp_config delete_pending sent refreshes trace emit tick_sent refreshed_world].
  split; [reflexivity|].
  rewrite !authEvents_app, !delays_app.
  cbn [authEvents List.filter delays omap]. rewrite !app_nil_r.
  repeat split; lia.
Qed.

(** X15: after a 401 answer that is not retried, a refresh that rejects
    makes the handler call [logout], navigate to the session-expired page
    when there is a window, and throw the 401 error; the request is not
    replayed. *)
Theorem refresh_rejected_logs_out
    (fuel : nat) (config : Config) (w : World)
    (message : string) (code : option string) (body : Json) (request : bool) :
  let c := prepared E (currentUser w) config in
  let error := makeError c message code (Some (401%Z, body)) request false in
  transport E (sent w) c = RawFail message code (Some (401%Z, body)) request false ->
  shouldRetry error = false ->
  refreshToken E (refreshes w) = RefreshThrows ->
  exists (ne : NormalizedError) (w' : World),
    axiosInstance E (S fuel) config w = (Some (Rejected (ThrownNormalized ne)), w')
    /\ ne_status ne = 401%Z
    /\ ne_message ne = "인증이 필요하거나 만료되었습니다."%string
    /\ sent w' = S (sent w)
    /\ trace w'
       = trace w ++ [EvSend c; EvRefresh; EvLogout]
         ++ (if hasWindow E then [EvNavigate "/?error=session_expired"] else []).
Proof.
  intros c error Hrun Hretry Hrefresh.
  rewrite axiosInstance_step. cbv zeta. fold c. rewrite Hrun. fold error.
  rewrite responseRejected_branches. cbv zeta.
  change (err_cancel (makeError c message code (Some (401%Z, body)) request false))
    with false.
  fold error. rewrite Hretry.
  cbn [error makeError err_response option_map status fst Z.eqb Pos.eqb].
  cbn [emit refreshes tick_sent]. rewrite Hrefresh.
  do 2 eexists. split; [reflexivity|].
  unfold refreshFailed.
  destruct (hasWindow E); cbn [refreshed_world emit trace tick_sent sent];
    rewrite <- ?app_assoc; repeat split.
Qed.

End Outcomes.

Section Replay.

Local Open Scope list_scope.

Variable E : Env.

Lemma messageOr_string (errorData : Json) (msg fallback : string) :
  JsJson.optStr errorData "message" = Some msg -> msg <> ""%string ->
  messageOr errorData fallback = msg.
Proof.
  unfold JsJson.optStr, messageOr. intros Hmsg Hne.
  destruct (JsJson.optProp errorData "message"); try discriminate.
  injection Hmsg as ->. cbn [JsJson.truthy Encoding.toString].
  destruct (String.eqb_spec msg ""); [contradiction | reflexivity].
Qed.

(** X16: the message of an HTTP error is fixed for the statuses 401, 408,
    429, 500, 502, 503 and 504, whatever the server sent; for every other
    status a non-empty message sent by the server is the one shown. *)
Theorem statusMessage_table (st : Z) (errorData : Json) :
  (In st [401; 408; 429; 500; 502; 503; 504]%Z ->
   statusMessage st errorData = statusMessage st JUndefined)
  /\ (~ In st [401; 408; 429; 500; 502; 503; 504]%Z ->
      forall msg : string,
        JsJson.optStr errorData "message" = Some msg -> msg <> ""%string ->
        statusMessage st errorData = msg).
Proof.
  split.
  - cbn [In]. intros H.
    repeat (destruct H as [<-|H]; [reflexivity|]). destruct H.
  - cbn [In]. intros Hout msg Hmsg Hne. unfold statusMessage.
    repeat match goal with
           | |- context [Z.eqb st ?k] =>
             destruct (Z.eqb_spec st k) as [->|_]
           end; cbn [orb]; try apply (messageOr_string _ _ _ Hmsg Hne);
      exfalso; apply Hout; tauto.
Qed.

Lemma statusMessage_table_witness :
  statusMessage 503 (JObj [("message", JStr "maintenance")])
  = statusMessage 503 JUndefined
  /\ statusMessage 409 (JObj [("message", JStr "name taken")]) = "name taken"%string.
Proof.
  split.
  - destruct (statusMessage_table 503 (JObj [("message", JStr "maintenance")]))
      as [Hfixed _].
    apply Hfixed. do 5 right. left. reflexivity.
  - destruct (statusMessage_table 409 (JObj [("message", JStr "name taken")]))
      as [_ Hserver].
    apply Hserver.
    + cbn. intros H. repeat (destruct H as [H|H]; [discriminate|]). destruct H.
    + reflexivity.
    + discriminate.
Defined.

(** A normalised error that settles a request was built for the last
    attempt: its [config], the configuration behind [retry()] and the
    [config] of its original error are the configuration of that attempt. *)
Lemma normalized_from_last_attempt (fuel : nat) :
  forall (config : Config) (w : World) (ne : NormalizedError) (w' : World),
    axiosInstance E fuel config w = (Some (Rejected (ThrownNormalized ne)), w') ->
    exists c : Config,
      last (sends (trace w')) = Some c
      /\ ne_retry ne = with_retryCount c (Some (counter c))
      /\ ne_config ne = ne_retry ne
      /\ err_config (ne_originalError ne) = Some (ne_retry ne).
Proof.
  induction fuel as [|fuel IH]; intros config w ne w' Hrun; [discriminate|].
  rewrite axiosInstance_step in Hrun. cbv zeta in Hrun.
  set (c := prepared E (currentUser w) config) in *.
  pose proof (last_sends_send (trace w) c) as Hlast.
  destruct (transport E (sent w) c)
    as [st body | message code response request cancel]; [discriminate|].
  rewrite responseRejected_branches in Hrun. cbv zeta in Hrun.
  destruct (err_cancel _); [discriminate|].
  destruct (shouldRetry _); [exact (IH _ _ _ _ Hrun)|].
  assert (Hdirect : forall (ne0 : NormalizedError) (w0 : World),
             sends (trace w0) = sends (trace w ++ [EvSend c]) ->
             ne_retry ne0 = with_retryCount c (Some (counter c)) ->
             ne_config ne0 = ne_retry ne0 ->
             err_config (ne_originalError ne0) = Some (ne_retry ne0) ->
             (Some (Rejected (ThrownNormalized ne0)), w0)
             = (Some (Rejected (ThrownNormalized ne)), w') ->
             exists c : Config,
               last (sends (trace w')) = Some c
               /\ ne_retry ne = with_retryCount c (Some (counter c))
               /\ ne_config ne = ne_retry ne
               /\ err_config (ne_originalError ne) = Some (ne_retry ne)).
  { intros ne0 w0 Hs H1 H2 H3 [= <- <-]. exists c. rewrite Hs. auto. }
  assert (Hsame : forall user,
             sends (trace (refreshed_world user
                             (emit EvRefresh (emit (EvSend c) (tick_sent w)))))
             = sends (trace w ++ [EvSend c])).
  { intros user. cbn [refreshed_world emit trace tick_sent].
    rewrite !sends_app. cbn [sends omap]. now rewrite !app_nil_r. }
  destruct (err_response _) as [response'|].
  2:{ refine (Hdirect _ _ _ _ _ _ Hrun); reflexivity. }
  cbv zeta in Hrun.
  destruct (Z.eqb _ _); [|refine (Hdirect _ _ _ _ _ _ Hrun); reflexivity].
  destruct (refreshToken E _) as [refreshed user|].
  - destruct (refreshed && _).
    + destruct (headers _); [exact (IH _ _ _ _ Hrun)|].
      refine (Hdirect _ _ _ _ _ _ Hrun); try reflexivity.
      now rewrite sends_refreshFailed, Hsame.
    + refine (Hdirect _ _ _ _ _ _ Hrun); try reflexivity. apply Hsame.
  - refine (Hdirect _ _ _ _ _ _ Hrun); try reflexivity.
    now rewrite sends_refreshFailed, Hsame.
Qed.

(** X17: whenever a request settles with a normalised error, the error's
    [config] and the configuration replayed by [retry()] are the
    configuration of the last attempt (same method, address, body and
    headers), and the original error points to the same configuration. *)
Theorem normalized_error_replays_last_attempt
    (fuel : nat) (config : Config) (w : World) (ne : NormalizedError) (w' : World) :
  axiosInstance E fuel config w = (Some (Rejected (ThrownNormalized ne)), w') ->
  exists c : Config,
    last (sends (trace w')) = Some c
    /\ ne_retry ne = with_retryCount c (Some (counter c))
    /\ ne_config ne = ne_retry ne
    /\ err_config (ne_originalError ne) = Some (ne_retry ne)
    /\ forall (fuel' : nat) (w0 : World),
         retry E fuel' ne w0
         = axiosInstance E fuel' (with_retryCount c (Some (counter c))) w0.
Proof.
  intros Hrun.
  destruct (normalized_from_last_attempt fuel config w ne w' Hrun)
    as (c & Hlast & Hretry & Hconfig & Horig).
  exists c. repeat split; try assumption.
  intros fuel' w0. unfold retry. now rewrite Hretry.
Qed.

(** X18: the counter is not reset for a manual replay.  Against a backend
    that never answers 401 and whose failures are all retryable, the error
    that ends the automatic retries carries the counter [maxRetries], and
    its [retry()] makes exactly one more attempt, without waiting. *)
Theorem replay_after_exhaustion
    (fuel : nat) (config : Config) (w : World) (ne : NormalizedError) (w' : World) :
  no401 E -> allRetryable E ->
  (counter config <= maxRetries RETRY_CONFIG)%nat ->
  (maxRetries RETRY_CONFIG - counter config < fuel)%nat ->
  axiosInstance E fuel config w = (Some (Rejected (ThrownNormalized ne)), w') ->
  counter (ne_retry ne) = maxRetries RETRY_CONFIG
  /\ forall (fuel' : nat) (w0 : World),
     exists (res : Settled) (w1 : World),
       retry E (S fuel') ne w0 = (Some res, w1)
       /\ sent w1 = S (sent w0)
       /\ delays (trace w1) = delays (trace w0).
Proof.
  intros Hno Hall Hle Hfuel Hrun.
  destruct (normalized_from_last_attempt fuel config w ne w' Hrun)
    as (c & Hlast & Hretry & _).
  destruct (retry_loop_settles E fuel config w Hno Hle Hfuel)
    as (res & w2 & k & Hrun2 & Hcounters & _ & _ & Hexhausted).
  rewrite Hrun in Hrun2. injection Hrun2 as <- <-.
  specialize (Hexhausted Hall (ex_intro _ _ eq_refl)).
  assert (Hc : counter c = maxRetries RETRY_CONFIG).
  { assert (Hl : last (sentCounters (trace w')) = Some (counter c))
      by (unfold sentCounters; now rewrite fmap_last, Hlast).
    rewrite Hcounters in Hl.
    replace (S k) with (k + 1)%nat in Hl by lia.
    rewrite seq_app, app_assoc in Hl. cbn [seq] in Hl.
    rewrite last_snoc in Hl. injection Hl as Hl. lia. }
  assert (Hcounter : counter (ne_retry ne) = maxRetries RETRY_CONFIG)
    by (rewrite Hretry; exact Hc).
  split; [exact Hcounter|].
  intros fuel' w0. unfold retry.
  rewrite axiosInstance_step. cbv zeta.
  pose proof (requestInterceptor_counter E (currentUser w0) (ne_retry ne)) as Hprep.
  fold (prepared E (currentUser w0) (ne_retry ne)) in Hprep.
  set (c1 := prepared E (currentUser w0) (ne_retry ne)) in *.
  assert (Hdel : delays (trace (emit (EvSend c1) (tick_sent w0))) = delays (trace w0)).
  { cbn [emit trace tick_sent]. now rewrite delays_app, delays_send, app_nil_r. }
  destruct (transport E (sent w0) c1)
    as [st body | message code response request cancel] eqn:Hout.
  - do 2 eexists. split; [reflexivity|]. split; [reflexivity | exact Hdel].
  - set (error := makeError c1 message code response request cancel).
    destruct (Hall _ _ _ _ _ _ _ Hout) as [-> _].
    assert (Hstop : shouldRetry error = false).
    { unfold shouldRetry. apply andb_false_iff. right. apply Nat.ltb_ge.
      change (counter (normalizedConfig error)) with (counter c1). lia. }
    destruct response as [[st body]|].
    + rewrite (responseRejected_http E _ error
                 {| status := st; resp_data := body; resp_config := c1 |})
        by (reflexivity || exact Hstop || exact (Hno _ _ _ _ _ _ _ _ Hout)).
      do 2 eexists. split; [reflexivity|]. split; [reflexivity | exact Hdel].
    + rewrite responseRejected_network by (reflexivity || exact Hstop).
      do 2 eexists. split; [reflexivity|]. split; [reflexivity | exact Hdel].
Qed.

End Replay.

Lemma backoff_waits_within_witness :
  backoffWithin
    (trace (axiosInstance Sample.unavailable 4 Sample.request (initialWorld None)).2).
Proof.
  apply (backoff_waits_within Sample.unavailable 4 Sample.request (initialWorld None)).
  - intros k. split; discriminate.
  - constructor.
Defined.

Lemma http_error_surfaced_at_once_witness :
  exists ne : NormalizedError,
    axiosInstance Scenario.missing 1 Sample.request (initialWorld None)
    = (Some (Rejected (ThrownNormalized ne)),
       emit (EvSend (prepared Scenario.missing None Sample.request))
            (tick_sent (initialWorld None)))
    /\ ne_status ne = 404%Z
    /\ ne_message ne = "no such room"
    /\ ne_code ne = JUndefined
    /\ ne_data ne = JObj [("message", JStr "no such room")]
    /\ ne_isNetworkError ne = false
    /\ ne_retry ne
       = with_retryCount (prepared Scenario.missing None Sample.request) (Some 0%nat).
Proof.
  apply (http_error_surfaced_at_once Scenario.missing 0 Sample.request (initialWorld None)
           "Request failed with status code 404" (Some "ERR_BAD_REQUEST") 404
           (JObj [("message", JStr "no such room")]) true).
  - reflexivity.
  - intros (c & [= <-] & H). cbn in H.
    repeat (destruct H as [H|H]; [discriminate|]). destruct H.
  - cbn. intros H. repeat (destruct H as [H|H]; [discriminate|]). destruct H.
  - discriminate.
  - exact I.
Defined.

Lemma cancelled_request_not_retried_witness :
  axiosInstance Scenario.aborting 4 Sample.request (initialWorld None)
  = (Some (Rejected (ThrownAxios
                       (touched (makeError (prepared Scenario.aborting None Sample.request)
                                   "canceled" (Some "ERR_CANCELED") None true true)))),
     emit (EvSend (prepared Scenario.aborting None Sample.request))
          (tick_sent (initialWorld None))).
Proof.
  apply (cancelled_request_not_retried Scenario.aborting 3 Sample.request
           (initialWorld None) "canceled" (Some "ERR_CANCELED") None true).
  reflexivity.
Defined.

Lemma refresh_then_replay_witness :
  exists (r : Response) (w' : World),
    axiosInstance Scenario.renewing 2 Sample.request (initialWorld (Some Sample.session))
    = (Some (Fulfilled r), w')
    /\ header (resp_config r) "x-auth-token" = Some "fresh"
    /\ sent w' = 2%nat
    /\ refreshes w' = 1%nat
    /\ authEvents (trace w') = [EvRefresh]
    /\ delays (trace w') = [].
Proof.
  destruct (refresh_then_replay Scenario.renewing 0 Sample.request
              (initialWorld (Some Sample.session))
              "Request failed with status code 401" (Some "ERR_BAD_REQUEST") JNull true
              Scenario.renewed "fresh" eq_refl eq_refl eq_refl eq_refl
              ltac:(discriminate))
    as (h & _ & _ & Hauth & Hdone).
  destruct Hdone as (r & w' & Hrun & Hconfig & Hrest).
  - intros c. exists 200%Z, (JStr "ok"). reflexivity.
  - exists r, w'. split; [exact Hrun|]. split; [|exact Hrest].
    rewrite Hconfig. exact Hauth.
Defined.

Lemma refresh_rejected_logs_out_witness :
  exists (ne : NormalizedError) (w' : World),
    axiosInstance Scenario.revoked 1 Sample.request (initialWorld (Some Sample.session))
    = (Some (Rejected (ThrownNormalized ne)), w')
    /\ ne_status ne = 401%Z
    /\ ne_message ne = "인증이 필요하거나 만료되었습니다."
    /\ sent w' = 1%nat
    /\ trace w'
       = [EvSend (prepared Scenario.revoked (Some Sample.session) Sample.request);
          EvRefresh; EvLogout; EvNavigate "/?error=session_expired"].
Proof.
  apply (refresh_rejected_logs_out Scenario.revoked 0 Sample.request
           (initialWorld (Some Sample.session))
           "Request failed with status code 401" (Some "ERR_BAD_REQUEST") JNull true);
    reflexivity.
Defined.

Lemma normalized_error_replays_last_attempt_witness :
  exists (ne : NormalizedError) (w' : World) (c : Config),
    axiosInstance Scenario.missing 1 Sample.request (initialWorld None)
    = (Some (Rejected (ThrownNormalized ne)), w')
    /\ last (sends (trace w')) = Some c
    /\ ne_retry ne = with_retryCount c (Some (counter c))
    /\ ne_config ne = ne_retry ne.
Proof.
  destruct (axiosInstance Scenario.missing 1 Sample.request (initialWorld None))
    as [[[r|[e|ne]]|] w'] eqn:Hrun; try (vm_compute in Hrun; discriminate).
  destruct (normalized_error_replays_last_attempt Scenario.missing 1 Sample.request
              (initialWorld None) ne w' Hrun) as (c & Hlast & Hretry & Hconfig & _).
  exists ne, w', c. repeat split; assumption.
Defined.

Lemma replay_after_exhaustion_witness :
  exists (ne : NormalizedError) (w' : World),
    axiosInstance Sample.unavailable 4 Sample.request (initialWorld None)
    = (Some (Rejected (ThrownNormalized ne)), w')
    /\ counter (ne_retry ne) = 3%nat
    /\ exists (res : Settled) (w1 : World),
         retry Sample.unavailable 1 ne w' = (Some res, w1)
         /\ sent w1 = S (sent w')
         /\ delays (trace w1) = delays (trace w').
Proof.
  destruct (axiosInstance Sample.unavailable 4 Sample.request (initialWorld None))
    as [[[r|[e|ne]]|] w'] eqn:Hrun; try (vm_compute in Hrun; discriminate).
  destruct (replay_after_exhaustion Sample.unavailable 4 Sample.request
              (initialWorld None) ne w') as [Hcounter Hreplay].
  - intros k c message code st body request cancel H.
    injection H as _ _ <- _ _ _. discriminate.
  - intros k c message code response request cancel H.
    injection H as <- <- <- <- <-. split; reflexivity.
  - cbn. lia.
  - cbn. lia.
  - exact Hrun.
  - exists ne, w'. split; [reflexivity|]. split; [exact Hcounter|]. apply Hreplay.
Defined.

(** ** More on the file service *)

Section FileServiceMore.

Import FileService.
Local Open Scope Z_scope.

Variable E : FileService.Env.

Lemma axios_fail (r : HttpRequest) (w : World) (e : Exception) :
  http E (length (requests w)) r = HttpFail e ->
  axios E r w = (Throw e, push_request r w).
Proof. intros H. unfold axios. now rewrite H. Qed.

Lemma validateFile_accepts (S : Service) (f : File) (w : World) :
  size f <= uploadLimit S ->
  validateFile S (Some f) w
  = (Return {| success := true; message := None; data := None |}, w).
Proof.
  intros Hsize. unfold validateFile.
  destruct (Z.gtb_spec (size f) (uploadLimit S)); [lia | reflexivity].
Qed.

(** X19: [validateFile] never throws and never touches the network; it
    accepts exactly the present files of at most [uploadLimit] bytes (the
    limit itself included) and then leaves the world untouched; a rejection
    shows exactly one notification. *)
Theorem validateFile_accepts_iff (S : Service) (file : option File) (w : World) :
  exists (r : Result) (w' : World),
    validateFile S file w = (Return r, w')
    /\ (success r = true <-> exists f, file = Some f /\ size f <= uploadLimit S)
    /\ requests w' = requests w
    /\ (success r = true -> w' = w)
    /\ (success r = false -> exists note, toasts w' = (toasts w ++ [note])%list).
Proof.
  destruct file as [f|].
  - destruct (Z_le_gt_dec (size f) (uploadLimit S)) as [Hle|Hgt].
    + rewrite (validateFile_accepts S f w Hle). do 2 eexists.
      split; [reflexivity|]. cbn [success]. repeat split; eauto. discriminate.
    + unfold validateFile, bind.
      destruct (Z.gtb_spec (size f) (uploadLimit S)); [|lia].
      do 2 eexists. split; [reflexivity|]. cbn [success requests toasts Toast_error].
      repeat split; try discriminate; eauto.
      intros (f' & [= <-] & Hle). lia.
  - do 2 eexists. split; [reflexivity|]. cbn [success requests toasts].
    repeat split; try discriminate; eauto.
    intros (f' & [=] & _).
Qed.

(** X20: for every file above the limit of 50 MiB the notification reads
    "파일 크기는 50.00 MB를 초과할 수 없습니다." and the result message is
    "파일 크기 초과"; for a missing file both are "파일이 선택되지 않았습니다.". *)
Theorem validateFile_messages (w : World) :
  (forall f : File,
      size f > 50 * 1024 * 1024 ->
      validateFile (constructor E) (Some f) w
      = (Return {| success := false; message := Some "파일 크기 초과"%string;
                   data := None |},
         {| currentUser := currentUser w; requests := requests w;
            toasts := toasts w ++ ["파일 크기는 50.00 MB를 초과할 수 없습니다."%string] |}))
  /\ validateFile (constructor E) None w
     = (Return {| success := false; message := Some "파일이 선택되지 않았습니다."%string;
                  data := None |},
        {| currentUser := currentUser w; requests := requests w;
           toasts := toasts w ++ ["파일이 선택되지 않았습니다."%string] |}).
Proof.
  split; [|reflexivity].
  intros f Hsize. unfold validateFile, bind.
  change (uploadLimit (constructor E)) with (50 * 1024 * 1024).
  destruct (Z.gtb_spec (size f) (50 * 1024 * 1024)); [reflexivity | lia].
Qed.

(** X21: with a valid file but no session token, [uploadFile] throws the
    missing-credentials error before any request is made, and shows no
    notification. *)
Theorem uploadFile_without_token (S : Service) (f : File) (w : World) :
  size f <= uploadLimit S ->
  Js.truthy (currentUser w ≫= token) = false ->
  uploadFile E S (Some f) w = (Throw (Error "인증 정보가 없습니다."), w).
Proof.
  intros Hsize Htoken. unfold uploadFile, bind.
  rewrite (validateFile_accepts S f w Hsize). cbn [success negb].
  unfold initializeUpload, bind, getCurrentUser. now rewrite Htoken.
Qed.

(** X22: when the init request fails, that failure is thrown after this
    single request: nothing is transferred and nothing is completed. *)
Theorem uploadFile_init_failure
    (S : Service) (f : File) (w : World) (user : User) (tok : string) (e : Exception) :
  size f <= uploadLimit S ->
  currentUser w = Some user -> token user = Some tok -> tok <> ""%string ->
  http E (length (requests w)) (initRequest S f tok) = HttpFail e ->
  uploadFile E S (Some f) w = (Throw e, push_request (initRequest S f tok) w).
Proof.
  intros Hsize Huser Htok Hne Hfail. unfold uploadFile, bind.
  rewrite (validateFile_accepts S f w Hsize). cbn [success negb].
  unfold initializeUpload, bind, getCurrentUser, field, get, ret.
  rewrite Huser. cbn [mbind option_bind]. rewrite Htok, (truthy_Some tok Hne).
  cbn [negb from_option id]. fold (initRequest S f tok).
  now rewrite (axios_fail _ _ _ Hfail).
Qed.

(** X23: when the answer to the init request carries no upload data
    ([data] is missing or null), [uploadFile] throws a [TypeError] after the
    init request and transfers nothing. *)
Theorem uploadFile_malformed_init
    (S : Service) (f : File) (w : World) (user : User) (tok : string)
    (answer uploadData : Json) :
  size f <= uploadLimit S ->
  currentUser w = Some user -> token user = Some tok -> tok <> ""%string ->
  http E (length (requests w)) (initRequest S f tok) = HttpOk answer ->
  JsJson.prop answer "data" = Some uploadData ->
  uploadData = JUndefined \/ uploadData = JNull ->
  uploadFile E S (Some f) w = (Throw TypeError, push_request (initRequest S f tok) w).
Proof.
  intros Hsize Huser Htok Hne Hok Hdata Hnone. unfold uploadFile, bind.
  rewrite (validateFile_accepts S f w Hsize). cbn [success negb].
  rewrite (initializeUpload_ok E S f w user tok answer uploadData Huser Htok Hne Hok Hdata).
  destruct Hnone as [-> | ->]; reflexivity.
Qed.

(** X24: when the transfer to the upload address fails, that failure is
    thrown after exactly the two requests init and transfer: the complete
    request is never sent. *)
Theorem uploadFile_transfer_failure
    (S : Service) (f : File) (w : World) (user : User) (tok : string)
    (answer uploadData uploadUrl : Json) (e : Exception) :
  size f <= uploadLimit S ->
  currentUser w = Some user -> token user = Some tok -> tok <> ""%string ->
  http E (length (requests w)) (initRequest S f tok) = HttpOk answer ->
  JsJson.prop answer "data" = Some uploadData ->
  JsJson.prop uploadData "uploadUrl" = Some uploadUrl ->
  http E (length (requests w) + 1) (transferRequest uploadUrl f) = HttpFail e ->
  uploadFile E S (Some f) w
  = (Throw e,
     {| currentUser := currentUser w;
        requests := requests w ++ [initRequest S f tok; transferRequest uploadUrl f];
        toasts := toasts w |}).
Proof.
  intros Hsize Huser Htok Hne Hok Hdata Hurl Hfail. unfold uploadFile, bind.
  rewrite (validateFile_accepts S f w Hsize). cbn [success negb].
  rewrite (initializeUpload_ok E S f w user tok answer uploadData Huser Htok Hne Hok Hdata).
  unfold get. rewrite Hurl. cbn [ret].
  unfold uploadToS3, bind, field, ret. fold (transferRequest uploadUrl f).
  rewrite (axios_fail _ _ e).
  2:{ cbn [push_request requests]. rewrite length_app. exact Hfail. }
  unfold push_request. cbn [currentUser requests toasts].
  now rewrite <- app_assoc.
Qed.

(** X25: without a session token [getFileInfo] and [deleteFile] throw the
    missing-credentials error and send nothing. *)
Theorem file_requests_need_token (S : Service) (fileId : Json) (w : World) :
  Js.truthy (currentUser w ≫= token) = false ->
  getFileInfo E S fileId w = (Throw (Error "인증 정보가 없습니다."), w)
  /\ deleteFile E S fileId w = (Throw (Error "인증 정보가 없습니다."), w).
Proof.
  intros Htoken. unfold getFileInfo, deleteFile, bind, getCurrentUser.
  now rewrite Htoken.
Qed.

(** X26: with a session token, [getFileInfo] and [deleteFile] each send
    exactly one request to [baseUrl/files/fileId] carrying only the
    [x-auth-token] header; [deleteFile] returns the answer as it is and
    [getFileInfo] returns the [data.file] of the answer. *)
Theorem file_requests_with_token
    (S : Service) (fileId : Json) (w : World) (user : User) (tok : string)
    (answer : Json) :
  currentUser w = Some user -> token user = Some tok -> tok <> ""%string ->
  let address := (show (baseUrl S) ++ "/files/" ++ Encoding.toString fileId)%string in
  (http E (length (requests w)) (Delete address {[ "x-auth-token"%string := tok ]})
   = HttpOk answer ->
   deleteFile E S fileId w
   = (Return answer, push_request (Delete address {[ "x-auth-token"%string := tok ]}) w))
  /\ (forall d fileRecord : Json,
         http E (length (requests w)) (Get address {[ "x-auth-token"%string := tok ]})
         = HttpOk answer ->
         JsJson.prop answer "data" = Some d ->
         JsJson.prop d "file" = Some fileRecord ->
         getFileInfo E S fileId w
         = (Return fileRecord,
            push_request (Get address {[ "x-auth-token"%string := tok ]}) w)).
Proof.
  intros Huser Htok Hne address. split.
  - intros Hok. unfold deleteFile, bind, getCurrentUser, ret.
    rewrite Huser. cbn [mbind option_bind]. rewrite Htok, (truthy_Some tok Hne).
    cbn [negb from_option id]. fold address. now rewrite (axios_ok _ _ _ _ Hok).
  - intros d fileRecord Hok Hd Hfile. unfold getFileInfo, bind, getCurrentUser, get, ret.
    rewrite Huser. cbn [mbind option_bind]. rewrite Htok, (truthy_Some tok Hne).
    cbn [negb from_option id]. fold address.
    rewrite (axios_ok _ _ _ _ Hok), Hd. cbv beta iota. now rewrite Hfile.
Qed.

End FileServiceMore.

Section AddressesMore.

Import FileService.

Variable E : FileService.Env.
Variable S : Service.

(** X27: with a session token [getFileUrl(filename, forPreview, true)]
    appends [?token=] with the form-encoded token, followed by
    [&sessionId=] with the form-encoded sessionId exactly when the session
    has one. *)
Theorem getFileUrl_with_token
    (user : User) (filename tok : string) (forPreview : bool) :
  filename <> "" -> token user = Some tok -> tok <> "" ->
  getFileUrl S (Some user) (Some filename) forPreview true
  = Return (show (baseUrl S) ++ "/api/files/"
            ++ (if forPreview then "view" else "download") ++ "/" ++ filename
            ++ "?token=" ++ Encoding.formEncode tok
            ++ (if Js.truthy (sessionId user)
                then "&sessionId=" ++ Encoding.formEncode (default "" (sessionId user))
                else "")).
Proof.
  intros Hname Htok Hne. unfold getFileUrl.
  rewrite (truthy_Some filename Hname). cbn [negb mbind option_bind andb].
  rewrite Htok, (truthy_Some tok Hne). cbn [show default from_option id].
  f_equal. rewrite !append_assoc. do 4 f_equal.
  destruct (Js.truthy (sessionId user)).
  - unfold Encoding.serializeParams. cbn [app map fst snd Js.join].
    change (Encoding.formEncode "token") with "token".
    change (Encoding.formEncode "sessionId") with "sessionId".
    now rewrite ?append_assoc.
  - unfold Encoding.serializeParams. cbn [map fst snd Js.join].
    change (Encoding.formEncode "token") with "token".
    now rewrite ?append_assoc, ?append_nil_r.
Qed.

(** X28: [getPreviewUrl] checks the file first: without a file name it
    throws the file-information error whatever the session and the flag;
    with a name and without [withAuth] it returns the bare preview address
    without looking at the session, and this is the address
    [getFileUrl(name, true, false)] returns whenever [baseUrl] is set. *)
Theorem getPreviewUrl_plain (user : option User) :
  (forall (file : option StoredFile) (withAuth : bool),
      Js.truthy (file ≫= filename) = false ->
      getPreviewUrl E S user file withAuth
      = Throw (Error "파일 정보가 제공되지 않았습니다."))
  /\ (forall name : string,
         name <> "" ->
         getPreviewUrl E S user (Some {| filename := Some name |}) false
         = Return (Js.or_else (baseUrl S)
                     (Js.or_else (NEXT_PUBLIC_API_GATEWAY_URL E) "")
                   ++ "/api/files/view/" ++ name)
         /\ (Js.truthy (baseUrl S) = true ->
             getPreviewUrl E S user (Some {| filename := Some name |}) false
             = getFileUrl S user (Some name) true false)).
Proof.
  split.
  - intros file withAuth Hfalse. unfold getPreviewUrl. now rewrite Hfalse.
  - intros name Hname.
    assert (Hret : getPreviewUrl E S user (Some {| filename := Some name |}) false
                   = Return (Js.or_else (baseUrl S)
                               (Js.or_else (NEXT_PUBLIC_API_GATEWAY_URL E) "")
                             ++ "/api/files/view/" ++ name)).
    { unfold getPreviewUrl. cbn [mbind option_bind filename].
      now rewrite (truthy_Some name Hname). }
    split; [exact Hret|].
    intros Hbase. rewrite Hret. unfold getFileUrl.
    rewrite (truthy_Some name Hname). cbn [negb andb show default from_option id].
    destruct (baseUrl S) as [b|]; [|discriminate].
    cbn [Js.truthy] in Hbase. cbn [Js.or_else default from_option id].
    destruct (String.eqb b ""); [discriminate | reflexivity].
Qed.

End AddressesMore.

Section FormattingMore.

Import FileService.
Local Open Scope Z_scope.

Lemma decimal_Z_of_nat_small (b : Z) :
  0 < b < 1024 -> Z.log2 b / 10 = 0.
Proof.
  intros [Hpos Hlt]. apply Z.div_small. split; [apply Z.log2_nonneg|].
  apply Z.log2_lt_pow2; [exact Hpos | exact Hlt].
Qed.

(** X29: a byte count below 1024 is shown exactly, as the count followed by
    ".00 B". *)
Theorem formatFileSize_bytes (bytes : Z) :
  0 < bytes < 1024 ->
  formatFileSize bytes = (Encoding.decimal bytes ++ ".00 B")%string.
Proof.
  intros Hb. unfold formatFileSize.
  destruct (Z.eqb_spec bytes 0); [lia|]. destruct (Z.ltb_spec bytes 0); [lia|].
  rewrite floorLog1024_exact by lia.
  rewrite (decimal_Z_of_nat_small bytes Hb).
  change (1024 ^ 0) with 1. cbn [Z.to_nat sizes lookup list_lookup default from_option id].
  unfold Encoding.toFixed2, Encoding.hundredths.
  replace ((200 * bytes + 1) / (2 * 1)) with (100 * bytes)
    by (Z.div_mod_to_equations; lia).
  replace (100 * bytes / 100) with bytes
    by (Z.div_mod_to_equations; lia).
  replace ((100 * bytes) mod 100) with 0
    by (Z.div_mod_to_equations; lia).
  now rewrite append_assoc.
Qed.

Lemma formatFileSize_bytes_witness :
  formatFileSize 512 = "512.00 B"%string.
Proof. apply (formatFileSize_bytes 512). lia. Defined.

(** X30: for a byte count below 1024^5 the number shown lies between 1.00
    and 1024.00, and the upper end is reached: one byte less than a
    mebibyte is shown as "1024.00 KB". *)
Theorem formatFileSize_number_range :
  (forall bytes : Z,
      0 < bytes < 1024 ^ 5 ->
      exists (n : Z) (unit : string),
        100 <= n <= 102400
        /\ formatFileSize bytes
           = (Encoding.decimal (n / 100) ++ "." ++ Encoding.twoDigits (n mod 100)
              ++ " " ++ unit)%string)
  /\ formatFileSize (1024 * 1024 - 1) = "1024.00 KB"%string.
Proof.
  split; [|reflexivity].
  intros bytes [Hpos Hlt].
  destruct (Z.le_gt_cases (1024 ^ 5 - 3) bytes) as [Hup|Hexact].
  { exists 100, "undefined"%string. split; [lia|].
    now rewrite formatFileSize_rounded_up by lia. }
  destruct (log1024_bounds bytes Hpos) as (Hi & Hlo & Hhi).
  set (i := Z.log2 bytes / 10) in *.
  assert (Hd : 0 < 1024 ^ i) by (apply Z.pow_pos_nonneg; lia).
  assert (Hnext : 1024 ^ (i + 1) = 1024 * 1024 ^ i)
    by (rewrite Z.pow_add_r by lia; lia).
  exists (Encoding.hundredths bytes (1024 ^ i)),
         (default "undefined"%string (sizes !! Z.to_nat i)).
  split.
  - unfold Encoding.hundredths. rewrite Hnext in Hhi.
    revert Hlo Hhi Hd. generalize (1024 ^ i). intros d Hlo Hhi Hd. split.
    + apply Z.div_le_lower_bound; lia.
    + assert ((200 * bytes + d) / (2 * d) < 102401)
        by (apply Z.div_lt_upper_bound; lia).
      lia.
  - unfold formatFileSize.
    destruct (Z.eqb_spec bytes 0); [lia|]. destruct (Z.ltb_spec bytes 0); [lia|].
    rewrite floorLog1024_exact by lia.
    fold i. unfold Encoding.toFixed2. now rewrite !append_assoc.
Qed.

Lemma formatFileSize_number_range_witness :
  exists (n : Z) (unit : string),
    100 <= n <= 102400
    /\ formatFileSize 1536
       = (Encoding.decimal (n / 100) ++ "." ++ Encoding.twoDigits (n mod 100)
          ++ " " ++ unit)%string.
Proof.
  destruct formatFileSize_number_range as [H _]. apply (H 1536). split; reflexivity.
Defined.

End FormattingMore.

Lemma validateFile_messages_witness :
  FileService.validateFile (FileService.constructor Sample.backend)
    (Some Sample.oversized) (Sample.idle None)
  = (FileService.Return
       {| FileService.success := false; FileService.message := Some "파일 크기 초과";
          FileService.data := None |},
     {| FileService.currentUser := None; FileService.requests := [];
        FileService.toasts := ["파일 크기는 50.00 MB를 초과할 수 없습니다."] |}).
Proof.
  destruct (validateFile_messages Sample.backend (Sample.idle None)) as [H _].
  apply (H Sample.oversized). reflexivity.
Defined.

Lemma uploadFile_without_token_witness :
  FileService.uploadFile Sample.backend (FileService.constructor Sample.backend)
    (Some Sample.picture) (Sample.idle None)
  = (FileService.Throw (FileService.Error "인증 정보가 없습니다."), Sample.idle None).
Proof.
  apply (uploadFile_without_token Sample.backend
           (FileService.constructor Sample.backend) Sample.picture (Sample.idle None)).
  - vm_compute. discriminate.
  - reflexivity.
Defined.

Lemma uploadFile_init_failure_witness :
  FileService.uploadFile (Scenario.failingAt 0)
    (FileService.constructor (Scenario.failingAt 0))
    (Some Sample.picture) (Sample.idle (Some Sample.session))
  = (FileService.Throw (FileService.HttpFailure 500),
     FileService.push_request
       (FileService.initRequest (FileService.constructor (Scenario.failingAt 0))
          Sample.picture "tok/1")
       (Sample.idle (Some Sample.session))).
Proof.
  apply (uploadFile_init_failure (Scenario.failingAt 0)
           (FileService.constructor (Scenario.failingAt 0)) Sample.picture
           (Sample.idle (Some Sample.session)) Sample.session "tok/1").
  - vm_compute. discriminate.
  - reflexivity.
  - reflexivity.
  - discriminate.
  - reflexivity.
Defined.

Lemma uploadFile_malformed_init_witness :
  FileService.uploadFile Scenario.emptyAnswers
    (FileService.constructor Scenario.emptyAnswers)
    (Some Sample.picture) (Sample.idle (Some Sample.session))
  = (FileService.Throw FileService.TypeError,
     FileService.push_request
       (FileService.initRequest (FileService.constructor Scenario.emptyAnswers)
          Sample.picture "tok/1")
       (Sample.idle (Some Sample.session))).
Proof.
  apply (uploadFile_malformed_init Scenario.emptyAnswers
           (FileService.constructor Scenario.emptyAnswers) Sample.picture
           (Sample.idle (Some Sample.session)) Sample.session "tok/1"
           (JObj []) JUndefined).
  - vm_compute. discriminate.
  - reflexivity.
  - reflexivity.
  - discriminate.
  - reflexivity.
  - reflexivity.
  - left. reflexivity.
Defined.

Lemma uploadFile_transfer_failure_witness :
  FileService.uploadFile (Scenario.failingAt 1)
    (FileService.constructor (Scenario.failingAt 1))
    (Some Sample.picture) (Sample.idle (Some Sample.session))
  = (FileService.Throw (FileService.HttpFailure 500),
     {| FileService.currentUser := Some Sample.session;
        FileService.requests :=
          [FileService.initRequest (FileService.constructor (Scenario.failingAt 1))
             Sample.picture "tok/1";
           FileService.transferRequest (JStr "https://bucket.example/put?sig=1")
             Sample.picture];
        FileService.toasts := [] |}).
Proof.
  apply (uploadFile_transfer_failure (Scenario.failingAt 1)
           (FileService.constructor (Scenario.failingAt 1)) Sample.picture
           (Sample.idle (Some Sample.session)) Sample.session "tok/1"
           Sample.initAnswer
           (JObj [("uploadUrl", JStr "https://bucket.example/put?sig=1");
                  ("uploadId", JStr "u-17")])
           (JStr "https://bucket.example/put?sig=1") (FileService.HttpFailure 500)).
  - vm_compute. discriminate.
  - reflexivity.
  - reflexivity.
  - discriminate.
  - reflexivity.
  - reflexivity.
  - reflexivity.
  - reflexivity.
Defined.

Lemma file_requests_need_token_witness :
  FileService.getFileInfo Scenario.store (FileService.constructor Scenario.store)
    (JStr "f-9") (Sample.idle None)
  = (FileService.Throw (FileService.Error "인증 정보가 없습니다."), Sample.idle None)
  /\ FileService.deleteFile Scenario.store (FileService.constructor Scenario.store)
       (JStr "f-9") (Sample.idle None)
     = (FileService.Throw (FileService.Error "인증 정보가 없습니다."), Sample.idle None).
Proof.
  apply (file_requests_need_token Scenario.store
           (FileService.constructor Scenario.store) (JStr "f-9") (Sample.idle None)).
  reflexivity.
Defined.

Lemma file_requests_with_token_witness :
  FileService.deleteFile Scenario.store (FileService.constructor Scenario.store)
    (JStr "f-9") (Sample.idle (Some Sample.session))
  = (FileService.Return Sample.completeAnswer,
     FileService.push_request
       (FileService.Delete "https://api.example/files/f-9" {[ "x-auth-token" := "tok/1" ]})
       (Sample.idle (Some Sample.session)))
  /\ FileService.getFileInfo Scenario.store (FileService.constructor Scenario.store)
       (JStr "f-9") (Sample.idle (Some Sample.session))
     = (FileService.Return (JObj [("filename", JStr "cat-17.png")]),
        FileService.push_request
          (FileService.Get "https://api.example/files/f-9" {[ "x-auth-token" := "tok/1" ]})
          (Sample.idle (Some Sample.session))).
Proof.
  destruct (file_requests_with_token Scenario.store
              (FileService.constructor Scenario.store) (JStr "f-9")
              (Sample.idle (Some Sample.session)) Sample.session "tok/1"
              Sample.completeAnswer eq_refl eq_refl ltac:(discriminate))
    as [Hdelete Hinfo].
  split.
  - apply Hdelete. reflexivity.
  - apply (Hinfo (JObj [("file", JObj [("filename", JStr "cat-17.png")])])
                 (JObj [("filename", JStr "cat-17.png")])); reflexivity.
Defined.

Lemma getFileUrl_with_token_witness :
  FileService.getFileUrl (FileService.constructor Sample.backend)
    (Some Sample.session) (Some "cat.png") false true
  = FileService.Return
      "https://api.example/api/files/download/cat.png?token=tok%2F1&sessionId=sid+7".
Proof.
  apply (getFileUrl_with_token (FileService.constructor Sample.backend)
           Sample.session "cat.png" "tok/1" false).
  - discriminate.
  - reflexivity.
  - discriminate.
Defined.

Lemma getPreviewUrl_plain_witness :
  FileService.getPreviewUrl Sample.backend (FileService.constructor Sample.backend)
    None None true
  = FileService.Throw (FileService.Error "파일 정보가 제공되지 않았습니다.")
  /\ FileService.getPreviewUrl Sample.backend (FileService.constructor Sample.backend)
       None (Some {| FileService.filename := Some "cat.png" |}) false
     = FileService.getFileUrl (FileService.constructor Sample.backend)
         None (Some "cat.png") true false.
Proof.
  destruct (getPreviewUrl_plain Sample.backend (FileService.constructor Sample.backend)
              None) as [Hthrow Hplain].
  split.
  - apply (Hthrow None true). reflexivity.
  - destruct (Hplain "cat.png" ltac:(discriminate)) as [_ Hsame].
    apply Hsame. reflexivity.
Defined.

Lemma requestInterceptor_preserves_witness :
  url (requestInterceptor Sample.unavailable (Some Sample.session)
         (mergeConfig Sample.request))
  = Some "/rooms"
  /\ header (requestInterceptor Sample.unavailable (Some Sample.session)
               (mergeConfig Sample.request)) "Content-Type"
     = Some "application/json".
Proof.
  destruct (requestInterceptor_preserves Sample.unavailable (Some Sample.session)
              (mergeConfig Sample.request) eq_refl) as (_ & Hurl & _ & _ & Hheader).
  split; [exact Hurl|].
  rewrite (Hheader "Content-Type") by discriminate. reflexivity.
Defined.

Lemma pendingRequests_never_grow_witness :
  pendingRequests
    (axiosInstance Scenario.flaky 5 Sample.request (initialWorld None)).2 = ∅.
Proof.
  apply (pendingRequests_never_grow Scenario.flaky 5 Sample.request (initialWorld None)).
  reflexivity.
Defined.
